(** * Personal Finance Tracker: a shallow embedding of [finance_tracker.py]

    The development follows the source file top to bottom:

    - [PyFloat]: Python's [float(str)] and the binary64 values it returns,
      on the Standard Library's [spec_float] (53-bit significand, round to
      nearest even), with [str.strip] from the same built-in layer;
    - [Pandas]: the few [pandas] operations the program calls, on a frame
      made of a column list and rows that map a column name to a cell;
    - [App]: the [FinanceTrackerApp] object as a record of the attributes
      its callbacks read and write, and one function per callback.

    Strings are sequences of 8-bit characters; characters above 127 are
    neither digits nor white space here.  The text of the CSV file is not
    modelled: a persisted line is the list of cells handed to the writer. *)

From Stdlib Require Import ZArith Bool List Ascii String SpecFloat Sorted Lia.
From stdpp Require Import base option list gmap strings.

Local Open Scope string_scope.
Local Open Scope list_scope.

(** ** Python built-ins: [str.strip] and [float] *)

Module PyFloat.

Definition prec : Z := 53.
Definition emax : Z := 1024.

Abbreviation binary64 := spec_float.

Definition nan : binary64 := S754_nan.
Definition zero : binary64 := S754_zero false.

Definition leb (x y : binary64) : bool := SFleb x y.
Definition ltb (x y : binary64) : bool := SFltb x y.
Definition add (x y : binary64) : binary64 := SFadd prec emax x y.
Definition is_nan (x : binary64) : bool :=
  match x with S754_nan => true | _ => false end.

Definition code (c : ascii) : N := N_of_ascii c.

(** White space of [str.isspace] below 128: TAB..CR, FS..US and SPACE. *)
Definition is_space (c : ascii) : bool :=
  let n := code c in
  ((9 <=? n) && (n <=? 13) || (28 <=? n) && (n <=? 32))%N.

Definition is_digit (c : ascii) : bool :=
  let n := code c in ((48 <=? n) && (n <=? 57))%N.

Definition digit_val (c : ascii) : Z := Z.of_N (code c) - 48.

Definition lower (c : ascii) : ascii :=
  let n := code c in
  if ((65 <=? n) && (n <=? 90))%N then ascii_of_N (n + 32) else c.

Fixpoint lstrip (s : list ascii) : list ascii :=
  match s with
  | c :: s' => if is_space c then lstrip s' else s
  | [] => []
  end.

Definition strip_chars (s : list ascii) : list ascii :=
  rev (lstrip (rev (lstrip s))).

Definition strip (s : string) : string :=
  string_of_list_ascii (strip_chars (list_ascii_of_string s)).

(** [(["_"] digit)*] after a first digit: [m] is the value of the digits
    read so far and [n] their number. *)
Fixpoint digits_tail (s : list ascii) (m n : Z) : Z * Z * list ascii :=
  match s with
  | c :: s' =>
      if is_digit c then digits_tail s' (10 * m + digit_val c)%Z (n + 1)%Z
      else if Ascii.eqb c "_" then
        match s' with
        | d :: s'' =>
            if is_digit d
            then digits_tail s'' (10 * m + digit_val d)%Z (n + 1)%Z
            else (m, n, s)
        | [] => (m, n, s)
        end
      else (m, n, s)
  | [] => (m, n, [])
  end.

(** [digitpart ::= digit (["_"] digit)*] *)
Definition digitpart (s : list ascii) (m : Z) : option (Z * Z * list ascii) :=
  match s with
  | c :: s' =>
      if is_digit c then Some (digits_tail s' (10 * m + digit_val c)%Z 1%Z)
      else None
  | [] => None
  end.

(** [number ::= [digitpart] "." digitpart | digitpart ["."]]; the result
    is the integer written by all the digits, the number of digits after
    the point, and the rest of the input. *)
Definition number (s : list ascii) : option (Z * Z * list ascii) :=
  match digitpart s 0 with
  | Some (m, _, rest) =>
      match rest with
      | "."%char :: rest' =>
          match digitpart rest' m with
          | Some r => Some r
          | None => Some (m, 0%Z, rest')
          end
      | _ => Some (m, 0%Z, rest)
      end
  | None =>
      match s with
      | "."%char :: rest' => digitpart rest' 0
      | _ => None
      end
  end.

Definition sign (s : list ascii) : bool * list ascii :=
  match s with
  | "-"%char :: s' => (true, s')
  | "+"%char :: s' => (false, s')
  | _ => (false, s)
  end.

(** [exponent ::= ("e" | "E") [sign] digitpart], read to the end of the
    input; no exponent is exponent 0. *)
Definition exponent (s : list ascii) : option Z :=
  match s with
  | [] => Some 0%Z
  | c :: s' =>
      if Ascii.eqb (lower c) "e" then
        let '(neg, s'') := sign s' in
        match digitpart s'' 0 with
        | Some (e, _, []) => Some (if neg then (- e)%Z else e)
        | _ => None
        end
      else None
  end.

(** The binary64 value nearest to [m * 10 ^ e10] (ties to even), for a
    sign and a natural number [m]. *)
Definition of_decimal (neg : bool) (m e10 : Z) : binary64 :=
  match m with
  | Zpos p =>
      if (0 <=? e10)%Z
      then binary_round prec emax neg (Z.to_pos (m * 10 ^ e10)) 0
      else
        let '(q, e, l) :=
          SFdiv_core_binary prec emax m 0 (10 ^ (- e10)) 0 in
        binary_round_aux prec emax neg q e l
  | _ => S754_zero neg
  end.

Definition floatnumber (neg : bool) (s : list ascii) : option binary64 :=
  match number s with
  | Some (m, k, rest) =>
      match exponent rest with
      | Some e => Some (of_decimal neg m (e - k))
      | None => None
      end
  | None => None
  end.

(** [float(s)] for a string: [None] stands for [ValueError]. *)
Definition float_of_chars (s : list ascii) : option binary64 :=
  let '(neg, body) := sign (strip_chars s) in
  let word := string_of_list_ascii (map lower body) in
  if String.eqb word "inf" || String.eqb word "infinity"
  then Some (S754_infinity neg)
  else if String.eqb word "nan" then Some S754_nan
  else floatnumber neg body.

Definition float (s : string) : option binary64 :=
  float_of_chars (list_ascii_of_string s).

End PyFloat.

(** ** Exceptions

    The exceptions of Python that the program can meet.  [Unsupported] is
    not one of them: it marks the places where a frame holds a value of a
    kind the program never puts there (a number in a column of dates, a
    date in a column of amounts), for which this development says nothing
    about the library. *)

Inductive exn :=
| KeyError (key : string)
| ValueError
| AttributeError
| EmptyDataError
| Unsupported.

Inductive res (A : Type) :=
| Ok (x : A)
| Raise (e : exn).
Arguments Ok {A} x.
Arguments Raise {A} e.

#[global] Instance res_ret : MRet res := fun A x => Ok x.
#[global] Instance res_bind : MBind res := fun A B f m =>
  match m with
  | Ok x => f x
  | Raise e => Raise e
  end.

(** ** The pandas operations the program calls *)

Module Pandas.
Import PyFloat.

Record Timestamp := mkTimestamp {
  year : Z; month : Z; day : Z; hour : Z; minute : Z; second : Z
}.

(** A [Period] of frequency ['M']. *)
Record Period := mkPeriod { p_year : Z; p_month : Z }.

(** What a frame holds in one place.  The missing value [NaN] is
    [Num nan]; [NaT] is the missing value of a datetime column. *)
Inductive cell :=
| Str (s : string)
| Num (x : binary64)
| Time (t : Timestamp)
| Month (p : Period)
| NaT.

Definition NaN : cell := Num nan.

Abbreviation row := (gmap string cell).
Abbreviation series := (list cell).

Record DataFrame := mkDataFrame {
  columns : list string;
  rows : list row
}.

Definition member (c : string) (cols : list string) : bool :=
  existsb (String.eqb c) cols.

Definition at_ (r : row) (c : string) : cell := default NaN (r !! c).

(** [list(row)]: the values of a row in column order. *)
Definition values_of (cols : list string) (r : row) : list cell :=
  map (at_ r) cols.

(** [df.values.tolist()] *)
Definition values (df : DataFrame) : list (list cell) :=
  map (values_of (columns df)) (rows df).

(** [pd.DataFrame(columns=cols)] *)
Definition new_frame (cols : list string) : DataFrame :=
  mkDataFrame cols [].

(** [pd.DataFrame(d, columns=cols)] for a dict [d] of one-element lists. *)
Definition frame_of_dict (d : list (string * cell)) (cols : list string)
  : DataFrame :=
  mkDataFrame cols
    [list_to_map (List.filter (fun kv => member (fst kv) cols) d)].

(** [df.empty]: some axis has length 0. *)
Definition empty (df : DataFrame) : bool :=
  match columns df, rows df with
  | _ :: _, _ :: _ => false
  | _, _ => true
  end.

(** [df.copy()]: frames are values here. *)
Definition copy (df : DataFrame) : DataFrame := df.

(** [df[c]] *)
Definition getitem (df : DataFrame) (c : string) : res series :=
  if member c (columns df)
  then Ok (map (fun r => at_ r c) (rows df))
  else Raise (KeyError c).

(** [s == v] for a string [v], element by element. *)
Definition cell_is (v : string) (x : cell) : bool :=
  match x with
  | Str s => String.eqb s v
  | _ => false
  end.

Definition eq_str (s : series) (v : string) : list bool :=
  map (cell_is v) s.

Fixpoint keep {A} (l : list A) (mask : list bool) : list A :=
  match l, mask with
  | x :: l', b :: mask' => if b then x :: keep l' mask' else keep l' mask'
  | _, _ => []
  end.

(** [df[mask]] for a boolean series *)
Definition getitem_mask (df : DataFrame) (mask : list bool) : DataFrame :=
  mkDataFrame (columns df) (keep (rows df) mask).

(** [df[c] = s] *)
Definition setitem (df : DataFrame) (c : string) (s : series) : DataFrame :=
  mkDataFrame
    (if member c (columns df) then columns df else columns df ++ [c])
    (zip_with (fun r v => <[c := v]> r) (rows df) s).

(** [pd.concat([a, b], ignore_index=True)]: the columns of [a] followed
    by the new ones of [b]; a row has [NaN] where it has no value. *)
Definition concat (a b : DataFrame) : DataFrame :=
  mkDataFrame
    (columns a
       ++ List.filter (fun c => negb (member c (columns a))) (columns b))
    (rows a ++ rows b).

(** [df.to_csv(f, index=False, mode='a', header=h)] on the lines [f]
    already in the file. *)
Definition to_csv (df : DataFrame) (f : list (list cell)) (header : bool)
  : list (list cell) :=
  f ++ (if header then [map Str (columns df)] else []) ++ values df.

(** *** Dates *)

Definition two (a b : ascii) : option Z :=
  if is_digit a && is_digit b
  then Some (10 * digit_val a + digit_val b)%Z
  else None.

Definition leap (y : Z) : bool :=
  ((y mod 4 =? 0) && negb (y mod 100 =? 0) || (y mod 400 =? 0))%Z.

Definition days_in_month (y m : Z) : Z :=
  if (m =? 2)%Z then (if leap y then 29 else 28)%Z
  else if ((m =? 4) || (m =? 6) || (m =? 9) || (m =? 11))%Z then 30%Z
  else 31%Z.

Definition between (lo x hi : Z) : bool := ((lo <=? x) && (x <=? hi))%Z.

(** [YYYY-MM-DD], then what follows it.  Whole years inside the range
    of a [Timestamp] (1677-09-21 to 2262-04-11) are accepted. *)
Definition parse_date (s : list ascii) : option (Z * Z * Z * list ascii) :=
  match s with
  | y1 :: y2 :: y3 :: y4 :: "-"%char :: m1 :: m2 :: "-"%char :: d1 :: d2
      :: rest =>
      yh ← two y1 y2; yl ← two y3 y4; m ← two m1 m2; d ← two d1 d2;
      let y := (100 * yh + yl)%Z in
      if between 1678 y 2261 && between 1 m 12
         && between 1 d (days_in_month y m)
      then Some (y, m, d, rest) else None
  | _ => None
  end.

(** [ HH:MM:SS] to the end of the string, or nothing. *)
Definition parse_time (s : list ascii) : option (Z * Z * Z) :=
  match s with
  | [] => Some (0, 0, 0)%Z
  | [" "%char; h1; h2; ":"%char; m1; m2; ":"%char; s1; s2] =>
      h ← two h1 h2; m ← two m1 m2; s ← two s1 s2;
      if between 0 h 23 && between 0 m 59 && between 0 s 59
      then Some (h, m, s) else None
  | _ => None
  end.

(** The two layouts read here: the one [save_record] writes
    ([%Y-%m-%d %H:%M:%S]) and the date alone; each string is read on its
    own.  Any other string is a malformed date. *)
Definition parse_datetime (s : string) : option Timestamp :=
  '(y, m, d, rest) ← parse_date (list_ascii_of_string s);
  '(h, mi, se) ← parse_time rest;
  Some (mkTimestamp y m d h mi se).

Definition to_datetime_cell (x : cell) : res cell :=
  match x with
  | Str s =>
      match parse_datetime s with
      | Some t => Ok (Time t)
      | None => Raise ValueError
      end
  | Time t => Ok (Time t)
  | NaT => Ok NaT
  | Num S754_nan => Ok NaT
  | Num _ | Month _ => Raise Unsupported
  end.

(** [pd.to_datetime(s)] *)
Definition to_datetime (s : series) : res series := mapM to_datetime_cell s.

Definition to_period_cell (x : cell) : res cell :=
  match x with
  | Time t => Ok (Month (mkPeriod (year t) (month t)))
  | NaT => Ok NaT
  | _ => Raise AttributeError
  end.

(** [s.dt.to_period('M')] *)
Definition dt_to_period_M (s : series) : res series := mapM to_period_cell s.

(** *** Grouped sums *)

Definition period_compare (p q : Period) : comparison :=
  match (p_year p ?= p_year q)%Z with
  | Eq => (p_month p ?= p_month q)%Z
  | c => c
  end.

Definition pair_compare {A B} (ca : A -> A -> comparison)
    (cb : B -> B -> comparison) (x y : A * B) : comparison :=
  match ca (fst x) (fst y) with
  | Eq => cb (snd x) (snd y)
  | c => c
  end.

Definition month_type_compare
  : Period * string -> Period * string -> comparison :=
  pair_compare period_compare String.compare.

(** The sum skips missing values ([skipna]); the values that are present
    are added in row order, each addition rounded to binary64. *)
Definition plus (s x : binary64) : binary64 :=
  if is_nan x then s else add s x.

Section Grouping.
Context {K : Type} (cmp : K -> K -> comparison).

(** Add [x] to the sum of group [k], in a list kept sorted by key. *)
Fixpoint bump (k : K) (x : binary64) (acc : list (K * binary64))
  : list (K * binary64) :=
  match acc with
  | [] => [(k, plus zero x)]
  | (k', s) :: acc' =>
      match cmp k k' with
      | Eq => (k', plus s x) :: acc'
      | Lt => (k, plus zero x) :: acc
      | Gt => (k', s) :: bump k x acc'
      end
  end.

(** Rows whose key is missing are dropped ([dropna]). *)
Definition group_step (acc : list (K * binary64)) (kv : option K * binary64)
  : list (K * binary64) :=
  match fst kv with
  | Some k => bump k (snd kv) acc
  | None => acc
  end.

Definition group_sum (kvs : list (option K * binary64))
  : list (K * binary64) :=
  fold_left group_step kvs [].

Fixpoint assoc {V} (k : K) (l : list (K * V)) : option V :=
  match l with
  | [] => None
  | (k', v) :: l' =>
      match cmp k k' with
      | Eq => Some v
      | _ => assoc k l'
      end
  end.

(** Insert a key in a sorted list without repetition. *)
Fixpoint add_key (k : K) (l : list K) : list K :=
  match l with
  | [] => [k]
  | k' :: l' =>
      match cmp k k' with
      | Eq => l
      | Lt => k :: l
      | Gt => k' :: add_key k l'
      end
  end.

Definition uniques (l : list K) : list K :=
  fold_left (fun acc k => add_key k acc) l [].
End Grouping.

(** The value of a key cell: a string, or nothing for a missing value. *)
Definition str_key (x : cell) : res (option string) :=
  match x with
  | Str s => Ok (Some s)
  | Num S754_nan | NaT => Ok None
  | _ => Raise Unsupported
  end.

Definition month_key (x : cell) : res (option Period) :=
  match x with
  | Month p => Ok (Some p)
  | Num S754_nan | NaT => Ok None
  | _ => Raise Unsupported
  end.

(** The value of a cell of a float column. *)
Definition num (x : cell) : res binary64 :=
  match x with
  | Num v => Ok v
  | _ => Raise Unsupported
  end.

(** [df.groupby(k)[v].sum()]: a series indexed by the sorted keys. *)
Definition groupby_sum (df : DataFrame) (k v : string)
  : res (list (string * binary64)) :=
  ks ← getitem df k;
  vs ← getitem df v;
  keys ← mapM str_key ks;
  xs ← mapM num vs;
  mret (group_sum String.compare (zip keys xs)).

Definition both {A B} (x : option A) (y : option B) : option (A * B) :=
  match x, y with
  | Some a, Some b => Some (a, b)
  | _, _ => None
  end.

(** [df.groupby([k1, k2])[v].sum()] with a period key and a string key. *)
Definition groupby2_sum (df : DataFrame) (k1 k2 v : string)
  : res (list (Period * string * binary64)) :=
  ms ← getitem df k1;
  ts ← getitem df k2;
  vs ← getitem df v;
  keys1 ← mapM month_key ms;
  keys2 ← mapM str_key ts;
  xs ← mapM num vs;
  mret (group_sum month_type_compare (zip (zip_with both keys1 keys2) xs)).

(** The frame [unstack] returns: one line per value of the first key,
    one column per value of the second. *)
Record Pivot := mkPivot {
  index : list Period;
  pcolumns : list string;
  table : list (list binary64)
}.

(** [s.unstack(fill_value=0)] *)
Definition unstack (g : list (Period * string * binary64)) : Pivot :=
  let idx := uniques period_compare (map (fun kv => fst (fst kv)) g) in
  let cols := uniques String.compare (map (fun kv => snd (fst kv)) g) in
  mkPivot idx cols
    (map (fun m =>
            map (fun t =>
                   default zero (assoc month_type_compare (m, t) g))
              cols)
       idx).

Definition pivot_empty (p : Pivot) : bool :=
  match index p, pcolumns p with
  | _ :: _, _ :: _ => false
  | _, _ => true
  end.

End Pandas.

(** ** The application *)

Module App.
Import PyFloat Pandas.

Definition CSV_FILE : string := "finance_tracker.csv".
Definition COLUMNS : list string :=
  ["date"; "type"; "category"; "amount"; "description"].
Definition CATEGORIES : gmap string (list string) :=
  list_to_map
    [("Expense", ["Food"; "Transport"; "Shopping"; "Bills"; "Entertainment";
                  "Health"; "Other Expense"]);
     ("Income", ["Salary"; "Bonus"; "Investment"; "Gift"; "Other Income"])].

(** A call of [messagebox]; [showerror_exn] is the call whose text ends
    with the exception caught. *)
Inductive message :=
| showerror (title text : string)
| showerror_exn (title text : string) (e : exn)
| showinfo (title text : string).

(** The children of [self.plot_frame]. *)
Inductive widget :=
| Label (text : string)
| PieChart (slices : list (string * binary64))
| BarChart (bars : Pivot).

(** The contents of a file: its lines of cells, whatever its format. *)
Abbreviation file := (list (list cell)).

(** The attributes of [FinanceTrackerApp] the callbacks use, then what
    they reach outside the object: the files and the dialogs shown. *)
Record State := mkState {
  data : DataFrame;
  record_type : string;
  category_var : string;
  category_values : list string;
  amount_entry : string;
  description_entry : string;
  filter_type_var : string;
  filter_category_var : string;
  treeview : list (list cell);
  plot_frame : list widget;
  disk : gmap string file;
  messages : list message
}.

Definition set_data (d : DataFrame) (st : State) : State :=
  mkState d (record_type st) (category_var st) (category_values st)
    (amount_entry st) (description_entry st) (filter_type_var st)
    (filter_category_var st) (treeview st) (plot_frame st) (disk st)
    (messages st).

Definition set_form (t c : string) (vs : list string) (a d : string)
    (st : State) : State :=
  mkState (data st) t c vs a d (filter_type_var st)
    (filter_category_var st) (treeview st) (plot_frame st) (disk st)
    (messages st).

Definition set_filters (ft fc : string) (st : State) : State :=
  mkState (data st) (record_type st) (category_var st) (category_values st)
    (amount_entry st) (description_entry st) ft fc (treeview st)
    (plot_frame st) (disk st) (messages st).

Definition set_treeview (t : list (list cell)) (st : State) : State :=
  mkState (data st) (record_type st) (category_var st) (category_values st)
    (amount_entry st) (description_entry st) (filter_type_var st)
    (filter_category_var st) t (plot_frame st) (disk st) (messages st).

Definition set_plot_frame (w : list widget) (st : State) : State :=
  mkState (data st) (record_type st) (category_var st) (category_values st)
    (amount_entry st) (description_entry st) (filter_type_var st)
    (filter_category_var st) (treeview st) w (disk st) (messages st).

Definition set_disk (d : gmap string file) (st : State) : State :=
  mkState (data st) (record_type st) (category_var st) (category_values st)
    (amount_entry st) (description_entry st) (filter_type_var st)
    (filter_category_var st) (treeview st) (plot_frame st) d (messages st).

Definition alert (m : message) (st : State) : State :=
  mkState (data st) (record_type st) (category_var st) (category_values st)
    (amount_entry st) (description_entry st) (filter_type_var st)
    (filter_category_var st) (treeview st) (plot_frame st) (disk st)
    (messages st ++ [m]).

Definition pack (w : widget) (st : State) : State :=
  set_plot_frame (plot_frame st ++ [w]) st.

(** [os.path.exists] *)
Definition exists_ (path : string) (st : State) : bool :=
  bool_decide (is_Some (disk st !! path)).

(** *** [load_data] and [__init__]

    [pd.read_csv] is the reader of the library; the program only calls
    it, so it is a parameter here. *)
Section Startup.
Variable read_csv : file -> res DataFrame.

Definition load_data (d : gmap string file) : res DataFrame :=
  match d !! CSV_FILE with
  | Some f => read_csv f
  | None => Ok (new_frame COLUMNS)
  end.
End Startup.

(** *** The entry form *)

Definition update_categories (st : State) : State :=
  let current_type := record_type st in
  set_form current_type "" (default [] (CATEGORIES !! current_type))
    (amount_entry st) (description_entry st) st.

Definition digit (n : Z) : ascii := ascii_of_N (Z.to_N (48 + n mod 10)).

Definition pad2 (n : Z) : list ascii := [digit (n / 10); digit n].

Definition pad4 (n : Z) : list ascii :=
  [digit (n / 1000); digit (n / 100); digit (n / 10); digit n].

(** [t.strftime("%Y-%m-%d %H:%M:%S")] *)
Definition strftime (t : Timestamp) : string :=
  string_of_list_ascii
    (pad4 (year t) ++ "-"%char :: pad2 (month t) ++ "-"%char :: pad2 (day t)
     ++ " "%char :: pad2 (hour t) ++ ":"%char :: pad2 (minute t)
     ++ ":"%char :: pad2 (second t)).

(** [new_df] of [save_record]. *)
Definition new_df (record_date record_type category : string)
    (amount : binary64) (description : string) : DataFrame :=
  let new_record :=
    [("date", Str record_date); ("type", Str record_type);
     ("category", Str category); ("amount", Num amount);
     ("description", Str description)] in
  frame_of_dict new_record COLUMNS.

(** [save_record], with [now] for [datetime.now()].  Writing the file
    and extending the frame cannot fail here, so the handler of the last
    [try] is never entered. *)
Definition save_record (now : Timestamp) (st : State) : State :=
  let record_date := strftime now in
  let record_type := record_type st in
  let category := category_var st in
  let amount_str := strip (amount_entry st) in
  let description := strip (description_entry st) in
  if String.eqb category "" then
    alert (showerror "Validation Error" "Please select a category.") st
  else
    match float amount_str with
    | Some amount =>
        if leb amount zero then
          alert (showerror "Validation Error"
                   "Amount must be a positive number.") st
        else
          let df := new_df record_date record_type category amount
                      description in
          let is_new_file := negb (exists_ CSV_FILE st) in
          let st := set_disk
                      (<[CSV_FILE :=
                           to_csv df (default [] (disk st !! CSV_FILE))
                             is_new_file]> (disk st)) st in
          let st := alert (showinfo "Success" "Record saved successfully!")
                      st in
          let st := set_data (concat (data st) df) st in
          set_form record_type "" (category_values st) "" "" st
    | None =>
        alert (showerror "Validation Error"
                 "Amount must be a valid number.") st
    end.

(** *** The history *)

Definition load_history_data (filtered_df : option DataFrame) (st : State)
  : State :=
  let df_to_display := default (data st) filtered_df in
  set_treeview (if empty df_to_display then [] else values df_to_display) st.

(** The rows [apply_filter] hands to [load_history_data]. *)
Definition filtered (df : DataFrame) (filter_type filter_category : string)
  : res DataFrame :=
  let filtered_data := copy df in
  filtered_data ←
    (if negb (String.eqb filter_type "All") then
       s ← getitem filtered_data "type";
       mret (getitem_mask filtered_data (eq_str s filter_type))
     else mret filtered_data);
  (if negb (String.eqb filter_category "All") then
     s ← getitem filtered_data "category";
     mret (getitem_mask filtered_data (eq_str s filter_category))
   else mret filtered_data).

(** An exception leaves the callback: Tk reports it and goes on, and the
    rows displayed stay as they were. *)
Definition apply_filter (st : State) : State :=
  match filtered (data st) (filter_type_var st) (filter_category_var st) with
  | Ok filtered_data => load_history_data (Some filtered_data) st
  | Raise _ => st
  end.

(** *** The dashboard *)

Definition expense_data (df : DataFrame) : res (list (string * binary64)) :=
  s ← getitem df "type";
  groupby_sum (getitem_mask df (eq_str s "Expense")) "category" "amount".

(** The first [try] of [create_dashboard_plots]; drawing a chart that has
    data is taken to succeed, here and in the second. *)
Definition pie_chart (st : State) : State :=
  match expense_data (data st) with
  | Ok g =>
      match g with
      | [] => st
      | _ :: _ => pack (PieChart g) st
      end
  | Raise e =>
      alert (showerror_exn "Plot Error" "Error generating pie chart: " e) st
  end.

(** The three statements before the test of [monthly_summary]: each one
    that succeeds leaves its assignment in [self.data]. *)
Definition monthly_summary (df : DataFrame) : DataFrame * res Pivot :=
  match s ← getitem df "date"; to_datetime s with
  | Raise e => (df, Raise e)
  | Ok d =>
      let df := setitem df "date" d in
      match s ← getitem df "date"; dt_to_period_M s with
      | Raise e => (df, Raise e)
      | Ok m =>
          let df := setitem df "month" m in
          (df, g ← groupby2_sum df "month" "type" "amount";
               mret (unstack g))
      end
  end.

Definition bar_chart (st : State) : State :=
  let '(df, r) := monthly_summary (data st) in
  let st := set_data df st in
  match r with
  | Ok p => if pivot_empty p then st else pack (BarChart p) st
  | Raise e =>
      alert (showerror_exn "Plot Error" "Error generating bar chart: " e) st
  end.

Definition create_dashboard_plots (st : State) : State :=
  let st := set_plot_frame [] st in
  if empty (data st) then
    pack (Label "No data to display. Please add some records first.") st
  else bar_chart (pie_chart st).

Definition on_tab_change (current_tab : string) (st : State) : State :=
  if String.eqb current_tab "History" then load_history_data None st
  else if String.eqb current_tab "Dashboard" then create_dashboard_plots st
  else st.

(** *** The exports

    [file_path] is what the dialog returned (the empty string when it
    was dismissed); the Boolean says whether the library can be
    imported. *)
Definition export_to_excel (openpyxl : bool) (file_path : string)
    (st : State) : State :=
  if negb (String.eqb file_path "") then
    if openpyxl then
      let st := set_disk
                  (<[file_path :=
                       map Str (columns (data st)) :: values (data st)]>
                     (disk st)) st in
      alert (showinfo "Export Successful"
               ("Data exported to " ++ file_path)) st
    else
      alert (showerror "Library Missing"
               "Please install the 'openpyxl' library: pip install openpyxl")
        st
  else st.

Definition export_to_pdf (reportlab : bool) (file_path : string)
    (st : State) : State :=
  if reportlab then
    if negb (String.eqb file_path "") then
      let data_list := map Str (columns (data st)) :: values (data st) in
      let st := set_disk (<[file_path := data_list]> (disk st)) st in
      alert (showinfo "Export Successful"
               ("Data exported to " ++ file_path)) st
    else st
  else
    alert (showerror "Library Missing"
             "Please install the 'ReportLab' library: pip install ReportLab")
      st.

(** *** The window *)

Section Window.
Variable read_csv : file -> res DataFrame.

(** [__init__]: [load_data], then the widgets in their first state. *)
Definition init (d : gmap string file) : res State :=
  df ← load_data read_csv d;
  let st :=
    mkState df "Expense" "" [] "" "" "All" "All" [] [] d [] in
  mret (load_history_data None (update_categories st)).
End Window.

(** What the user can do to the window. *)
Inductive event :=
| ChooseType (expense : bool)
| ChooseCategory (c : string)
| TypeAmount (s : string)
| TypeDescription (s : string)
| Save (now : Timestamp)
| ChooseFilterType (v : string)
| ChooseFilterCategory (v : string)
| ApplyFilter
| SelectTab (tab : string)
| ExportExcel (openpyxl : bool) (file_path : string)
| ExportPdf (reportlab : bool) (file_path : string).

Definition all_categories : list string :=
  "All" :: default [] (CATEGORIES !! "Expense")
    ++ default [] (CATEGORIES !! "Income").

(** A read-only combobox offers its values and nothing else. *)
Definition handle (e : event) (st : State) : State :=
  match e with
  | ChooseType expense =>
      update_categories
        (set_form (if expense then "Expense" else "Income")
           (category_var st) (category_values st) (amount_entry st)
           (description_entry st) st)
  | ChooseCategory c =>
      if member c (category_values st)
      then set_form (record_type st) c (category_values st)
             (amount_entry st) (description_entry st) st
      else st
  | TypeAmount s =>
      set_form (record_type st) (category_var st) (category_values st) s
        (description_entry st) st
  | TypeDescription s =>
      set_form (record_type st) (category_var st) (category_values st)
        (amount_entry st) s st
  | Save now => save_record now st
  | ChooseFilterType v =>
      if member v ["All"; "Income"; "Expense"]
      then set_filters v (filter_category_var st) st else st
  | ChooseFilterCategory v =>
      if member v all_categories
      then set_filters (filter_type_var st) v st else st
  | ApplyFilter => apply_filter st
  | SelectTab tab => on_tab_change tab st
  | ExportExcel o p => export_to_excel o p st
  | ExportPdf r p => export_to_pdf r p st
  end.

Definition run (es : list event) (st : State) : State :=
  fold_left (fun st e => handle e st) es st.

End App.

Import PyFloat Pandas App.

(** ** Records and form entries

    A [record] is the dictionary [new_record] of [save_record]; an [entry]
    is what the user puts in the form before pressing the button, with the
    time at which the button is pressed. *)

Record record := mkRecord {
  r_date : string;
  r_type : string;
  r_category : string;
  r_amount : binary64;
  r_description : string
}.

Definition record_row (r : record) : row :=
  list_to_map
    [("date", Str (r_date r)); ("type", Str (r_type r));
     ("category", Str (r_category r)); ("amount", Num (r_amount r));
     ("description", Str (r_description r))].

(** The frame whose rows are the given records, in order. *)
Definition frame_of (rs : list record) : DataFrame :=
  mkDataFrame COLUMNS (map record_row rs).

(** The two kinds of line of the persisted file. *)
Definition header : list cell := map Str COLUMNS.

Definition line_of (r : record) : list cell :=
  [Str (r_date r); Str (r_type r); Str (r_category r); Num (r_amount r);
   Str (r_description r)].

Record entry := mkEntry {
  e_now : Timestamp;
  e_type : string;
  e_category : string;
  e_amount : string;
  e_description : string
}.

Definition fill (e : entry) (st : State) : State :=
  set_form (e_type e) (e_category e) (category_values st) (e_amount e)
    (e_description e) st.

Definition submit (e : entry) (st : State) : State :=
  save_record (e_now e) (fill e st).

Definition submit_all (es : list entry) (st : State) : State :=
  fold_left (fun st e => submit e st) es st.

Definition amount_of (e : entry) : binary64 :=
  default nan (float (strip (e_amount e))).

Definition record_of (e : entry) : record :=
  mkRecord (strftime (e_now e)) (e_type e) (e_category e) (amount_of e)
    (strip (e_description e)).

(** A non-empty category and an amount that reads as a number above 0. *)
Definition valid (e : entry) : bool :=
  negb (String.eqb (e_category e) "")
  && match float (strip (e_amount e)) with
     | Some a => ltb zero a
     | None => false
     end.

(** The persisted lines: those of [CSV_FILE], none when it is absent. *)
Definition persisted (st : State) : file := default [] (disk st !! CSV_FILE).

(** The window after a save that passed the checks with amount [a]: one
    line more in the file, the dialog, one row more in memory, and the
    fields of the form cleared. *)
Definition saved (now : Timestamp) (st : State) (a : binary64) : State :=
  let r := mkRecord (strftime now) (record_type st) (category_var st) a
             (strip (description_entry st)) in
  set_form (record_type st) "" (category_values st) "" ""
    (set_data (concat (data st) (frame_of [r]))
       (alert (showinfo "Success" "Record saved successfully!")
          (set_disk
             (<[CSV_FILE :=
                  persisted st
                  ++ (if exists_ CSV_FILE st then [] else [header])
                  ++ [line_of r]]> (disk st)) st))).

(** The form offers the categories of the type selected, and the category
    selected, if any, is one of them. *)
Definition form_ok (st : State) : Prop :=
  (record_type st = "Expense" \/ record_type st = "Income")
  /\ category_values st = default [] (CATEGORIES !! record_type st)
  /\ (category_var st = ""
      \/ member (category_var st) (category_values st) = true).

Definition form (st : State)
  : string * string * list string * string * string :=
  (record_type st, category_var st, category_values st, amount_entry st,
   description_entry st).

(** ** Filters *)

(** A row passes the two filters of the history. *)
Definition row_matches (ft fc : string) (r : row) : bool :=
  (String.eqb ft "All" || cell_is ft (at_ r "type"))
  && (String.eqb fc "All" || cell_is fc (at_ r "category")).

Definition has_columns (df : DataFrame) : bool :=
  member "type" (columns df) && member "category" (columns df).

(** ** Orders and sums *)

(** What grouping asks of a comparison of keys. *)
Record Order {K : Type} (cmp : K -> K -> comparison) : Prop := mkOrder {
  cmp_eq : forall x y, cmp x y = Eq <-> x = y;
  cmp_antisym : forall x y, cmp y x = CompOpp (cmp x y);
  cmp_trans : forall x y z, cmp x y = Lt -> cmp y z = Lt -> cmp x z = Lt
}.

Definition ascending {K : Type} (cmp : K -> K -> comparison) (l : list K)
  : Prop :=
  StronglySorted (fun a b => cmp a b = Lt) l.

(** The sum of a column of amounts, from the first row to the last. *)
Definition total (xs : list binary64) : binary64 := fold_left plus xs zero.

Definition same {K : Type} (cmp : K -> K -> comparison) (k k' : K) : bool :=
  match cmp k k' with
  | Eq => true
  | _ => false
  end.

(** The values that go to group [k]. *)
Definition picks {K : Type} (cmp : K -> K -> comparison) (k : K)
    (kvs : list (option K * binary64)) : list binary64 :=
  map snd
    (List.filter
       (fun kv => match fst kv with
                  | Some k' => same cmp k k'
                  | None => false
                  end)
       kvs).

(** ** Records on the dashboard *)

Definition is_expense (r : record) : bool := String.eqb (r_type r) "Expense".

(** The calendar month of the date of a record. *)
Definition month_of (r : record) : option Period :=
  t ← parse_datetime (r_date r); Some (mkPeriod (year t) (month t)).


(** The timestamp and the month read from the date of a record, for a
    date that reads. *)
Definition stamp (r : record) : Timestamp :=
  default (mkTimestamp 0 0 0 0 0 0) (parse_datetime (r_date r)).

Definition per (r : record) : Period :=
  mkPeriod (year (stamp r)) (month (stamp r)).



(** ** Times of day

    The values [datetime.now()] can take, within the years a [Timestamp]
    covers. *)
Definition valid_timestamp (t : Timestamp) : bool :=
  between 1678 (year t) 2261 && between 1 (month t) 12
  && between 1 (day t) (days_in_month (year t) (month t))
  && between 0 (hour t) 23 && between 0 (minute t) 59
  && between 0 (second t) 59.

(** ** Sample data *)

(** The binary64 value of a decimal literal. *)
Definition lit (s : string) : binary64 := default nan (float s).

(** A window that has just opened on no file. *)
Definition blank : State :=
  mkState (new_frame COLUMNS) "Expense" ""
    ["Food"; "Transport"; "Shopping"; "Bills"; "Entertainment"; "Health";
     "Other Expense"]
    "" "" "All" "All" [] [] ∅ [].

Definition two_entries : list entry :=
  [mkEntry (mkTimestamp 2024 1 5 9 30 0) "Expense" "Food" "20" "lunch";
   mkEntry (mkTimestamp 2024 1 10 8 0 0) "Income" "Salary" " 1000.50 " ""].


(** One record saved, then the dashboard opened. *)
Definition save_then_dashboard : list event :=
  [ChooseCategory "Food"; TypeAmount "20";
   Save (mkTimestamp 2024 1 5 9 30 0); SelectTab "Dashboard"].

(** The amount field filled with the text [nan]. *)
Definition save_nan : list event :=
  [ChooseCategory "Food"; TypeAmount "nan";
   Save (mkTimestamp 2024 1 5 9 30 0)].

(** Three expenses and two incomes, and a window that holds them. *)
Definition five_records : list record :=
  [mkRecord "2024-01-05 09:30:00" "Expense" "Food" (lit "20") "";
   mkRecord "2024-01-10 08:00:00" "Income" "Salary" (lit "1000") "";
   mkRecord "2024-01-12 12:00:00" "Expense" "Bills" (lit "40.5") "";
   mkRecord "2024-02-01 18:45:10" "Income" "Gift" (lit "10") "";
   mkRecord "2024-02-03 07:15:00" "Expense" "Food" (lit "30") ""].

Definition five_loaded : State := set_data (frame_of five_records) blank.

(** The example of the specification: two expenses on food and a salary. *)
Definition three_records : list record :=
  [mkRecord "2024-01-05" "Expense" "Food" (lit "20") "";
   mkRecord "2024-01-10" "Income" "Salary" (lit "1000") "";
   mkRecord "2024-02-01" "Expense" "Food" (lit "30") ""].

(** ** Spellings of amounts *)

(** The text is [nan], in any case, with or without a sign and with white
    space around it. *)
Definition spells_nan (s : string) : bool :=
  let '(_, body) := sign (strip_chars (list_ascii_of_string s)) in
  String.eqb (string_of_list_ascii (map lower body)) "nan".

(** The text has no character other than white space. *)
Definition is_blank (s : string) : bool :=
  forallb is_space (list_ascii_of_string s).



(** ** Callbacks and files *)

(** The one file a callback can write: [CSV_FILE] for a save, the path
    chosen for an export, none for the others. *)
Definition touches (e : event) (path : string) : bool :=
  match e with
  | Save _ => String.eqb path CSV_FILE
  | ExportExcel _ p | ExportPdf _ p => String.eqb path p
  | _ => false
  end.

Definition is_save (e : event) : bool :=
  match e with
  | Save _ => true
  | _ => false
  end.

(** The persisted file has its header and one line for each row held in
    memory, or is absent while no row is held. *)
Definition in_step (st : State) : Prop :=
  match disk st !! CSV_FILE with
  | Some f => length f = S (length (rows (data st)))
  | None => rows (data st) = []
  end.

(** A window on a file that has other columns, with a type chosen in the
    filter. *)
Definition foreign : State :=
  set_filters "Expense" "All"
    (set_data
       (mkDataFrame ["when"; "what"]
          [list_to_map [("when", Str "2024-01-05"); ("what", Str "tea")]])
       blank).

(** An event that leaves the persisted file to the saves: anything but
    an export aimed at [CSV_FILE]. *)
Definition spares_csv (e : event) : bool :=
  is_save e || negb (touches e CSV_FILE).

(** Some presses on the window with no save among them. *)
Definition browsing : list event :=
  [ChooseType false; ChooseCategory "Salary"; TypeAmount "12";
   SelectTab "History"; ChooseFilterType "Income"; ApplyFilter;
   SelectTab "Dashboard"; ExportPdf true "out.pdf"].

(** ** Frames the dashboard has been through *)





Definition month_type_amount (r : record)
  : option (Period * string) * binary64 :=
  (Some (per r, r_type r), r_amount r).





(** The two filter boxes hold values of their lists. *)
Definition filters_ok (st : State) : Prop :=
  member (filter_type_var st) ["All"; "Income"; "Expense"] = true
  /\ member (filter_category_var st) all_categories = true.

Definition filters (st : State) : string * string :=
  (filter_type_var st, filter_category_var st).

(** * Properties *)

(** ** Saving *)

Section Saving.

Lemma ltb_zero_not_leb a : ltb zero a = true -> leb a zero = false.
Proof. destruct a as [[]|[]| |[] m e]; cbv; congruence. Qed.

Lemma concat_frame_of rs r :
  concat (frame_of rs) (frame_of [r]) = frame_of (rs ++ [r]).
Proof. unfold concat, frame_of; cbn. by rewrite map_app. Qed.

Lemma values_frame_of rs : values (frame_of rs) = map line_of rs.
Proof. unfold values; cbn. by rewrite map_map. Qed.

Lemma new_df_frame d t c a e :
  new_df d t c a e = frame_of [mkRecord d t c a e].
Proof. reflexivity. Qed.

(** What [save_record] does once the two checks have passed. *)
Lemma save_record_accepted now st a :
  category_var st <> "" ->
  float (strip (amount_entry st)) = Some a ->
  leb a zero = false ->
  save_record now st = saved now st a.
Proof.
  intros Hc Ha Hle. unfold save_record, saved.
  apply String.eqb_neq in Hc. rewrite Hc, Ha, Hle.
  rewrite new_df_frame. unfold to_csv. rewrite values_frame_of.
  by destruct (exists_ CSV_FILE st).
Qed.

(** The two ways out of [save_record]. *)
Lemma save_record_cases now st :
  (exists text,
     save_record now st = alert (showerror "Validation Error" text) st)
  \/ (exists a,
        category_var st <> ""
        /\ float (strip (amount_entry st)) = Some a
        /\ leb a zero = false
        /\ save_record now st = saved now st a).
Proof.
  destruct (String.eqb (category_var st) "") eqn:Hc.
  { left. unfold save_record. rewrite Hc. eauto. }
  destruct (float (strip (amount_entry st))) as [a|] eqn:Ha.
  2: { left. unfold save_record. rewrite Hc, Ha. eauto. }
  destruct (leb a zero) eqn:Hle.
  { left. unfold save_record. rewrite Hc, Ha, Hle. eauto. }
  apply String.eqb_neq in Hc. right. exists a.
  eauto using save_record_accepted.
Qed.

(** A save never touches what is already there: the rows in memory and
    the lines of the file are extended at the end, or left as they are. *)
Lemma save_record_extends now st :
  rows (data st) `prefix_of` rows (data (save_record now st))
  /\ persisted st `prefix_of` persisted (save_record now st).
Proof.
  destruct (save_record_cases now st) as [[text ->]|(a & _ & _ & _ & ->)].
  - done.
  - split.
    + by apply prefix_app_r.
    + unfold persisted at 2, saved; cbn. rewrite lookup_insert_eq; cbn.
      by apply prefix_app_r.
Qed.

Lemma submit_extends e st :
  rows (data st) `prefix_of` rows (data (submit e st))
  /\ persisted st `prefix_of` persisted (submit e st).
Proof. apply (save_record_extends (e_now e) (fill e st)). Qed.

Lemma submit_all_extends es st :
  rows (data st) `prefix_of` rows (data (submit_all es st))
  /\ persisted st `prefix_of` persisted (submit_all es st).
Proof.
  revert st; induction es as [|e es IH]; intros st; [done|].
  cbn. destruct (submit_extends e st), (IH (submit e st)).
  split; etrans; eauto.
Qed.

Lemma submit_all_app es1 es2 st :
  submit_all (es1 ++ es2) st = submit_all es2 (submit_all es1 st).
Proof. apply fold_left_app. Qed.

Lemma submit_valid e st :
  valid e = true ->
  data (submit e st) = concat (data st) (frame_of [record_of e])
  /\ disk (submit e st) !! CSV_FILE =
       Some (persisted st ++ (if exists_ CSV_FILE st then [] else [header])
             ++ [line_of (record_of e)]).
Proof.
  unfold valid. intros [Hc Ha]%andb_prop.
  apply negb_true_iff, String.eqb_neq in Hc.
  destruct (float (strip (e_amount e))) as [a|] eqn:Hf; [|done].
  unfold submit.
  rewrite (save_record_accepted (e_now e) (fill e st) a Hc Hf
             (ltb_zero_not_leb a Ha)).
  unfold saved, record_of, amount_of; cbn.
  by rewrite Hf, lookup_insert_eq.
Qed.

Lemma submit_all_valid es st rs :
  data st = frame_of rs ->
  Forall (fun e => valid e = true) es ->
  data (submit_all es st) = frame_of (rs ++ map record_of es)
  /\ disk (submit_all es st) !! CSV_FILE =
       match es with
       | [] => disk st !! CSV_FILE
       | _ :: _ =>
           Some (persisted st
                 ++ (if exists_ CSV_FILE st then [] else [header])
                 ++ map (fun e => line_of (record_of e)) es)
       end.
Proof.
  intros Hd Hv. revert st rs Hd.
  induction Hv as [|e es He _ IH]; intros st rs Hd.
  { cbn. by rewrite app_nil_r. }
  change (submit_all (e :: es) st) with (submit_all es (submit e st)).
  destruct (submit_valid e st He) as (Hd' & Hp).
  rewrite Hd, concat_frame_of in Hd'.
  destruct (IH (submit e st) _ Hd') as [IHd IHp].
  rewrite IHd, IHp, <- !app_assoc. cbn. split; [done|].
  destruct es as [|e' es]; [done|].
  unfold persisted at 1, exists_ at 1. rewrite Hp. cbn.
  by rewrite <- !app_assoc.
Qed.

(** C1. Starting with no persisted file and an empty dataset, N valid
    saves leave exactly N rows in memory and N lines after the header in
    the file, both in the order of the saves; and at every point of the
    sequence what was present then is an initial part of what is present
    at the end. *)
Theorem saves_append_in_order (st : State) (es : list entry) :
  data st = new_frame COLUMNS ->
  disk st !! CSV_FILE = None ->
  Forall (fun e => valid e = true) es ->
  let st' := submit_all es st in
  data st' = frame_of (map record_of es)
  /\ length (rows (data st')) = length es
  /\ disk st' !! CSV_FILE =
       match es with
       | [] => None
       | _ :: _ => Some (header :: map (fun e => line_of (record_of e)) es)
       end
  /\ (forall es1 es2, es = es1 ++ es2 ->
        rows (data (submit_all es1 st)) `prefix_of` rows (data st')
        /\ persisted (submit_all es1 st) `prefix_of` persisted st').
Proof.
  intros Hd Hf Hv st'.
  destruct (submit_all_valid es st [] Hd Hv) as [Hd' Hp'].
  fold st' in Hd', Hp'. cbn in Hd'.
  split; [done|]. split; [by rewrite Hd'; cbn; rewrite !length_map|].
  split.
  - rewrite Hp'. unfold persisted, exists_. rewrite Hf.
    by destruct es.
  - intros es1 es2 ->. subst st'. rewrite submit_all_app.
    apply submit_all_extends.
Qed.

Lemma saves_append_in_order_witness :
  data blank = new_frame COLUMNS
  /\ disk blank !! CSV_FILE = None
  /\ Forall (fun e => valid e = true) two_entries
  /\ length (rows (data (submit_all two_entries blank))) = 2.
Proof.
  assert (Hv : Forall (fun e => valid e = true) two_entries)
    by (repeat constructor).
  split; [reflexivity|]. split; [reflexivity|]. split; [exact Hv|].
  exact (proj1 (proj2
    (saves_append_in_order blank two_entries eq_refl eq_refl Hv))).
Defined.


Lemma save_record_rejected now st :
  category_var st = ""
  \/ float (strip (amount_entry st)) = None
  \/ (exists a, float (strip (amount_entry st)) = Some a /\ leb a zero = true) ->
  exists text,
    save_record now st = alert (showerror "Validation Error" text) st
    /\ text =
         if String.eqb (category_var st) "" then "Please select a category."
         else match float (strip (amount_entry st)) with
              | Some _ => "Amount must be a positive number."
              | None => "Amount must be a valid number."
              end.
Proof.
  unfold save_record. intros H.
  destruct (String.eqb (category_var st) "") eqn:Hc; [eauto|].
  apply String.eqb_neq in Hc.
  destruct H as [H|[H|(a & H & Hle)]]; [done| |]; rewrite H; [eauto|].
  rewrite Hle. eauto.
Qed.



End Saving.

(** ** Loading *)

(** C8. With no persisted file, [load_data] returns, without raising, the
    frame with the fixed columns and no row. *)
Theorem load_data_without_file (read_csv : file -> res DataFrame)
    (d : gmap string file) :
  d !! CSV_FILE = None ->
  exists df,
    load_data read_csv d = Ok df
    /\ columns df = ["date"; "type"; "category"; "amount"; "description"]
    /\ rows df = [].
Proof. intros H. unfold load_data. rewrite H. by eexists. Qed.

Lemma load_data_without_file_witness :
  (∅ : gmap string file) !! CSV_FILE = None
  /\ exists df, load_data (fun _ => Raise EmptyDataError) ∅ = Ok df
                /\ columns df = COLUMNS /\ rows df = [].
Proof.
  split; [reflexivity|].
  exact (load_data_without_file (fun _ => Raise EmptyDataError) ∅ eq_refl).
Defined.

(** ** Exporting *)



(** ** The history and its filters *)

Section History.

Lemma keep_map {A} (f : A -> bool) (l : list A) :
  keep l (map f l) = List.filter f l.
Proof. induction l as [|x l IH]; cbn; [done|]. by rewrite IH. Qed.

Lemma filter_twice {A} (f g : A -> bool) (l : list A) :
  List.filter g (List.filter f l) = List.filter (fun x => f x && g x) l.
Proof.
  induction l as [|x l IH]; cbn; [done|].
  destruct (f x); cbn; [|done]. destruct (g x); by rewrite IH.
Qed.

Lemma getitem_member df c :
  member c (columns df) = true ->
  getitem df c = Ok (map (fun r => at_ r c) (rows df)).
Proof. unfold getitem. by intros ->. Qed.

Lemma select_eq df c v :
  member c (columns df) = true ->
  (s ← getitem df c; mret (getitem_mask df (eq_str s v))) =
    Ok (mkDataFrame (columns df)
          (List.filter (fun r => cell_is v (at_ r c)) (rows df))).
Proof.
  intros H. rewrite (getitem_member _ _ H). cbn.
  unfold getitem_mask, eq_str. rewrite map_map.
  by rewrite (keep_map (fun r => cell_is v (at_ r c))).
Qed.

Lemma filtered_rows df ft fc :
  has_columns df = true ->
  filtered df ft fc =
    Ok (mkDataFrame (columns df)
          (List.filter (row_matches ft fc) (rows df))).
Proof.
  intros [Ht Hc]%andb_prop. unfold filtered, copy, row_matches.
  destruct (String.eqb ft "All"); cbn -[getitem].
  - destruct (String.eqb fc "All"); cbn -[getitem].
    + destruct df as [cols rs]; cbn. do 2 f_equal.
      induction rs as [|r rs IH]; cbn; [done|]. by rewrite <- IH.
    + by rewrite select_eq.
  - rewrite select_eq by done. cbn -[getitem].
    destruct (String.eqb fc "All"); cbn -[getitem].
    + do 2 f_equal. apply List.filter_ext. intros r.
      by rewrite andb_true_r.
    + rewrite select_eq by done. cbn. by rewrite filter_twice.
Qed.

Lemma apply_filter_treeview st :
  has_columns (data st) = true ->
  apply_filter st =
    set_treeview
      (map (values_of (columns (data st)))
         (List.filter
            (row_matches (filter_type_var st) (filter_category_var st))
            (rows (data st)))) st.
Proof.
  intros H. unfold apply_filter. rewrite (filtered_rows _ _ _ H).
  unfold load_history_data; cbn. f_equal.
  unfold empty, values; cbn.
  destruct (columns (data st)) eqn:Hc.
  { unfold has_columns in H. by rewrite Hc in H. }
  by destruct (List.filter _ _).
Qed.

(** C5. On a dataset that has the two columns, the rows displayed after a
    filter are the rows of the dataset whose type is the type chosen
    (any type for ["All"]) and whose category is the category chosen (any
    for ["All"]), in the order of the dataset; on three expenses and two
    incomes, type ["Expense"] with category ["All"] displays the three
    expenses in that order. *)
Theorem filter_displays_matching_rows (st : State) (ft fc : string) :
  has_columns (data st) = true ->
  treeview (apply_filter (set_filters ft fc st)) =
    map (values_of (columns (data st)))
      (List.filter
         (fun r =>
            (String.eqb ft "All" || cell_is ft (at_ r "type"))
            && (String.eqb fc "All" || cell_is fc (at_ r "category")))
         (rows (data st)))
  /\ treeview
       (apply_filter
          (set_filters "Expense" "All" (set_data (frame_of five_records) st))) =
     map line_of
       [mkRecord "2024-01-05 09:30:00" "Expense" "Food" (lit "20") "";
        mkRecord "2024-01-12 12:00:00" "Expense" "Bills" (lit "40.5") "";
        mkRecord "2024-02-03 07:15:00" "Expense" "Food" (lit "30") ""].
Proof.
  intros H. split; [|reflexivity].
  by rewrite (apply_filter_treeview (set_filters ft fc st) H).
Qed.

Lemma filter_displays_matching_rows_witness :
  has_columns (data five_loaded) = true
  /\ length (treeview (apply_filter (set_filters "Income" "Gift" five_loaded)))
     = 1.
Proof.
  split; [reflexivity|].
  rewrite (proj1 (filter_displays_matching_rows five_loaded "Income" "Gift"
                    eq_refl)).
  reflexivity.
Defined.



End History.

(** ** What writes the dataset *)

Section Frame.

Lemma blank_is_init (read_csv : file -> res DataFrame) :
  init read_csv ∅ = Ok blank.
Proof. reflexivity. Qed.

Lemma apply_filter_keeps st :
  data (apply_filter st) = data st /\ form (apply_filter st) = form st
  /\ disk (apply_filter st) = disk st.
Proof. unfold apply_filter. by case_match. Qed.

Lemma export_to_excel_keeps o p st :
  data (export_to_excel o p st) = data st
  /\ form (export_to_excel o p st) = form st.
Proof. unfold export_to_excel. by repeat case_match. Qed.

Lemma export_to_pdf_keeps o p st :
  data (export_to_pdf o p st) = data st
  /\ form (export_to_pdf o p st) = form st.
Proof. unfold export_to_pdf. by repeat case_match. Qed.

Lemma pie_chart_keeps st :
  data (pie_chart st) = data st /\ form (pie_chart st) = form st
  /\ disk (pie_chart st) = disk st.
Proof. unfold pie_chart. by repeat case_match. Qed.

Lemma bar_chart_keeps st :
  form (bar_chart st) = form st /\ disk (bar_chart st) = disk st.
Proof.
  unfold bar_chart. destruct (monthly_summary (data st)) as [df r].
  by repeat case_match.
Qed.

Lemma create_dashboard_plots_keeps st :
  form (create_dashboard_plots st) = form st
  /\ disk (create_dashboard_plots st) = disk st.
Proof.
  unfold create_dashboard_plots. case_match; [done|].
  destruct (bar_chart_keeps (pie_chart (set_plot_frame [] st))) as [-> ->].
  by destruct (pie_chart_keeps (set_plot_frame [] st)) as (_ & -> & ->).
Qed.

(** X20. Apart from [save_record], only the dashboard assigns to
    [self.data]: the form, the history, the filter and the two exports
    return it as it was. *)
Lemma readers_keep_dataset (e : event) (st : State) :
  match e with
  | Save _ => True
  | SelectTab tab => tab = "Dashboard" \/ data (handle e st) = data st
  | _ => data (handle e st) = data st
  end.
Proof.
  destruct e; cbn; try done; try by case_match.
  - apply apply_filter_keeps.
  - unfold on_tab_change. destruct (String.eqb tab "History"); [by right|].
    destruct (String.eqb tab "Dashboard") eqn:E; [|by right].
    left. by apply String.eqb_eq.
  - apply export_to_excel_keeps.
  - apply export_to_pdf_keeps.
Qed.

(** C3, on [save_then_dashboard]: opening the dashboard replaces the
    dates of the dataset by timestamps and adds a column [month] to it,
    and an export made afterwards carries that column. *)
Theorem dashboard_writes_dataset :
  let before := run (take 3 save_then_dashboard) blank in
  let after := run save_then_dashboard blank in
  after = on_tab_change "Dashboard" before
  /\ columns (data before) =
       ["date"; "type"; "category"; "amount"; "description"]
  /\ columns (data after) =
       ["date"; "type"; "category"; "amount"; "description"; "month"]
  /\ values (data before) =
       [[Str "2024-01-05 09:30:00"; Str "Expense"; Str "Food";
         Num (lit "20"); Str ""]]
  /\ values (data after) =
       [[Time (mkTimestamp 2024 1 5 9 30 0); Str "Expense"; Str "Food";
         Num (lit "20"); Str ""; Month (mkPeriod 2024 1)]]
  /\ data after <> data before
  /\ disk (export_to_excel true "out.xlsx" after) !! "out.xlsx" =
       Some [[Str "date"; Str "type"; Str "category"; Str "amount";
              Str "description"; Str "month"];
             [Time (mkTimestamp 2024 1 5 9 30 0); Str "Expense"; Str "Food";
              Num (lit "20"); Str ""; Month (mkPeriod 2024 1)]].
Proof.
  intros before after. repeat split; try reflexivity.
  intros H. apply (f_equal columns) in H. discriminate H.
Qed.

(** ** What a save accepts *)

(** A callback that returns the form as it was keeps [form_ok]. *)
Ltac form_unchanged Hf :=
  unfold form_ok; injection Hf as -> -> -> _ _; auto.

Lemma handle_form_ok e st : form_ok st -> form_ok (handle e st).
Proof.
  intros (Ht & Hv & Hc). destruct e; cbn.
  - destruct expense; unfold form_ok; cbn; auto.
  - destruct (member c (category_values st)) eqn:E; unfold form_ok; cbn; auto.
  - by unfold form_ok.
  - by unfold form_ok.
  - unfold save_record. repeat case_match; unfold form_ok; cbn; auto.
  - by case_match.
  - by case_match.
  - destruct (apply_filter_keeps st) as (_ & Hf & _). form_unchanged Hf.
  - unfold on_tab_change. repeat case_match; try done.
    destruct (create_dashboard_plots_keeps st) as (Hf & _).
    form_unchanged Hf.
  - destruct (export_to_excel_keeps openpyxl file_path st) as (_ & Hf).
    form_unchanged Hf.
  - destruct (export_to_pdf_keeps reportlab file_path st) as (_ & Hf).
    form_unchanged Hf.
Qed.

Lemma run_form_ok es st : form_ok st -> form_ok (run es st).
Proof.
  revert st. induction es as [|e es IH]; intros st H; [done|].
  apply (IH (handle e st)), handle_form_ok, H.
Qed.

Lemma blank_form_ok : form_ok blank.
Proof. unfold form_ok; cbn; auto. Qed.

Lemma not_leb_zero a :
  leb a zero = false -> a = nan \/ ltb zero a = true.
Proof. destruct a as [[]|[]| |[] m e]; cbv; auto; discriminate. Qed.

(** X21. In a window reached from the start, a save either changes
    nothing in the dataset or adds one record whose category is one of
    its type's and whose amount is above 0 or is not a number at all. *)
Lemma saved_record_checked es now :
  let st := run es blank in
  data (save_record now st) = data st
  \/ exists r,
       data (save_record now st) = concat (data st) (frame_of [r])
       /\ member (r_category r) (default [] (CATEGORIES !! r_type r)) = true
       /\ (r_amount r = nan \/ ltb zero (r_amount r) = true).
Proof.
  intros st.
  destruct (run_form_ok es blank blank_form_ok) as (Ht & Hv & Hc).
  fold st in Ht, Hv, Hc.
  destruct (save_record_cases now st)
    as [[text ->]|(a & Hne & _ & Hle & ->)]; [by left|].
  right. eexists. split; [reflexivity|].
  cbn [r_category r_type r_amount]. rewrite <- Hv.
  split; [by destruct Hc|]. by apply not_leb_zero.
Qed.

(** C4, on [save_nan]: the text [nan] reads as a number, is not at most
    0, and is saved as the amount of a record, although it is not above 0
    either. *)
Theorem nan_amount_is_saved :
  let st := run save_nan blank in
  float "nan" = Some nan
  /\ leb nan zero = false
  /\ ltb zero nan = false
  /\ values (data st) =
       [[Str "2024-01-05 09:30:00"; Str "Expense"; Str "Food"; Num nan;
         Str ""]]
  /\ disk st !! CSV_FILE =
       Some [[Str "date"; Str "type"; Str "category"; Str "amount";
              Str "description"];
             [Str "2024-01-05 09:30:00"; Str "Expense"; Str "Food"; Num nan;
              Str ""]]
  /\ messages st = [showinfo "Success" "Record saved successfully!"].
Proof. repeat split; reflexivity. Qed.

End Frame.

(** ** Grouped sums *)

Section Groups.
Context {K : Type} (cmp : K -> K -> comparison) (Hord : Order cmp).

Lemma same_eq k k' : same cmp k k' = true <-> k = k'.
Proof.
  unfold same. split.
  - destruct (cmp k k') eqn:E; [|done..]. intros _.
    by apply (cmp_eq cmp Hord).
  - intros ->. by rewrite (proj2 (cmp_eq cmp Hord k' k') eq_refl).
Qed.

Lemma cmp_gt_lt x y : cmp x y = Gt -> cmp y x = Lt.
Proof. intros H. by rewrite (cmp_antisym cmp Hord), H. Qed.

Lemma cmp_lt_neq x y : cmp x y = Lt -> x <> y.
Proof. intros H E%(cmp_eq cmp Hord). congruence. Qed.

Lemma add_key_In k k' l : In k' (add_key cmp k l) <-> k' = k \/ In k' l.
Proof.
  induction l as [|a l IH]; cbn.
  - intuition.
  - destruct (cmp k a) eqn:E; cbn.
    + apply (cmp_eq cmp Hord) in E as ->. intuition.
    + intuition.
    + rewrite IH. intuition.
Qed.

Lemma add_key_ascending k l : ascending cmp l -> ascending cmp (add_key cmp k l).
Proof.
  unfold ascending. induction 1 as [|a l Hl IH Ha]; cbn.
  - repeat constructor.
  - destruct (cmp k a) eqn:E.
    + by constructor.
    + constructor; [by constructor|]. constructor; [done|].
      eapply List.Forall_impl; [|exact Ha]. intros b Hb.
      eapply (cmp_trans cmp Hord); eauto.
    + constructor; [done|]. apply List.Forall_forall. intros b Hb.
      apply add_key_In in Hb as [->|Hb]; [by apply cmp_gt_lt|].
      rewrite List.Forall_forall in Ha. by apply Ha.
Qed.




Lemma bump_keys k x (acc : list (K * binary64)) :
  map fst (bump cmp k x acc) = add_key cmp k (map fst acc).
Proof.
  induction acc as [|[a s] acc IH]; cbn; [done|].
  destruct (cmp k a); cbn; congruence.
Qed.

Lemma assoc_above {V} k (l : list (K * V)) :
  Forall (fun b => cmp k b = Lt) (map fst l) -> assoc cmp k l = None.
Proof.
  induction l as [|[a v] l IH]; cbn; [done|].
  intros [H Hl]%Forall_cons. rewrite H. auto.
Qed.


Lemma assoc_keys {V} k (l : list (K * V)) :
  is_Some (assoc cmp k l) <-> In k (map fst l).
Proof.
  induction l as [|[a w] l IH]; cbn.
  - rewrite is_Some_alt. intuition.
  - rewrite <- IH. destruct (cmp k a) eqn:E.
    + apply (cmp_eq cmp Hord) in E. split; eauto.
    + apply cmp_lt_neq in E. intuition congruence.
    + apply cmp_gt_lt, cmp_lt_neq in E. intuition congruence.
Qed.

Lemma bump_assoc k k' x (acc : list (K * binary64)) :
  ascending cmp (map fst acc) ->
  assoc cmp k (bump cmp k' x acc) =
    if same cmp k k' then Some (plus (default zero (assoc cmp k acc)) x)
    else assoc cmp k acc.
Proof.
  unfold ascending. induction acc as [|[a s] acc IH]; cbn; intros Hs.
  - unfold same. by destruct (cmp k k').
  - apply StronglySorted_inv in Hs as [Hs Ha].
    destruct (cmp k' a) eqn:E; cbn.
    + apply (cmp_eq cmp Hord) in E as ->. unfold same.
      by destruct (cmp k a).
    + destruct (same cmp k k') eqn:S.
      * apply same_eq in S as ->.
        unfold same. rewrite (proj2 (cmp_eq cmp Hord k' k') eq_refl), E.
        rewrite assoc_above; [done|].
        eapply List.Forall_impl; [|exact Ha]. intros b Hb.
        eapply (cmp_trans cmp Hord); eauto.
      * unfold same in S. by destruct (cmp k k').
    + destruct (cmp k a) eqn:E'.
      * apply (cmp_eq cmp Hord) in E'. subst a.
        unfold same. by rewrite (cmp_antisym cmp Hord k' k), E.
      * apply IH, Hs.
      * apply IH, Hs.
Qed.

Lemma fold_step kvs acc :
  ascending cmp (map fst acc) ->
  ascending cmp (map fst (fold_left (group_step cmp) kvs acc))
  /\ forall k,
       assoc cmp k (fold_left (group_step cmp) kvs acc) =
         match assoc cmp k acc with
         | Some s => Some (fold_left plus (picks cmp k kvs) s)
         | None =>
             match picks cmp k kvs with
             | [] => None
             | _ :: _ => Some (total (picks cmp k kvs))
             end
         end.
Proof.
  revert acc. induction kvs as [|[[k'|] x] kvs IH]; intros acc Hs.
  - split; [done|]. intros k. cbn. by destruct (assoc cmp k acc).
  - assert (Hs' : ascending cmp (map fst (bump cmp k' x acc))).
    { rewrite bump_keys. by apply add_key_ascending. }
    destruct (IH _ Hs') as [Ha Hk]. split; [exact Ha|]. intros k.
    change (fold_left (group_step cmp) ((Some k', x) :: kvs) acc)
      with (fold_left (group_step cmp) kvs (bump cmp k' x acc)).
    rewrite Hk, (bump_assoc k k' x acc Hs). unfold picks; cbn.
    destruct (same cmp k k'); cbn; [|done].
    by destruct (assoc cmp k acc).
  - apply (IH acc Hs).
Qed.

Lemma picks_some k kvs :
  In (Some k) (map fst kvs) <-> picks cmp k kvs <> [].
Proof.
  unfold picks. induction kvs as [|[[k'|] x] kvs IH]; cbn.
  - intuition.
  - destruct (same cmp k k') eqn:S; cbn.
    + apply same_eq in S as ->. intuition congruence.
    + rewrite <- IH. split; [|tauto]. intros [[= ->]|H']; [|tauto].
      by rewrite (proj2 (same_eq k k) eq_refl) in S.
  - rewrite <- IH. intuition congruence.
Qed.

(** The result of a grouped sum: keys in ascending order, one for each
    key that occurs, each with the sum of its values in row order. *)
Lemma group_sum_spec (kvs : list (option K * binary64)) :
  let g := group_sum cmp kvs in
  ascending cmp (map fst g)
  /\ (forall k, In k (map fst g) <-> In (Some k) (map fst kvs))
  /\ (forall k, assoc cmp k g =
                  match picks cmp k kvs with
                  | [] => None
                  | _ :: _ => Some (total (picks cmp k kvs))
                  end).
Proof.
  intros g. destruct (fold_step kvs []) as [Hs Hk]; [constructor|].
  split; [exact Hs|]. split; [|exact Hk].
  intros k. rewrite <- assoc_keys, picks_some. unfold g, group_sum.
  rewrite Hk. cbn. destruct (picks cmp k kvs).
  - rewrite is_Some_alt. intuition.
  - split; [done|eauto].
Qed.

End Groups.

(** ** The orders used by the dashboard *)

Section Orders.

Lemma string_compare_refl s : String.compare s s = Eq.
Proof.
  induction s as [|a s IH]; cbn; [done|].
  unfold Ascii.compare. by rewrite N.compare_refl.
Qed.

Lemma string_compare_trans s1 s2 s3 :
  String.compare s1 s2 = Lt -> String.compare s2 s3 = Lt ->
  String.compare s1 s3 = Lt.
Proof.
  revert s2 s3. induction s1 as [|a1 s1 IH]; intros [|a2 s2] [|a3 s3];
    cbn; try done.
  destruct (Ascii.compare a1 a2) eqn:E12; try done.
  - apply Ascii.compare_eq_iff in E12 as ->.
    destruct (Ascii.compare a2 a3); try done. apply IH.
  - intros _. destruct (Ascii.compare a2 a3) eqn:E23; try done.
    + apply Ascii.compare_eq_iff in E23 as ->. by rewrite E12.
    + intros _. unfold Ascii.compare in *.
      apply N.compare_lt_iff in E12, E23.
      by rewrite (proj2 (N.compare_lt_iff _ _) (N.lt_trans _ _ _ E12 E23)).
Qed.

Lemma string_order : Order String.compare.
Proof.
  split.
  - intros x y. split; [apply String.compare_eq_iff|].
    intros ->. apply string_compare_refl.
  - intros x y. apply String.compare_antisym.
  - apply string_compare_trans.
Qed.



End Orders.

(** ** Dates written and read *)

Section Dates.

Lemma code_digit n : code (digit n) = Z.to_N (48 + n mod 10)%Z.
Proof.
  unfold code, digit. apply N_ascii_embedding.
  pose proof (Z.mod_pos_bound n 10). lia.
Qed.

Lemma is_digit_digit n : is_digit (digit n) = true.
Proof.
  unfold is_digit. rewrite code_digit.
  pose proof (Z.mod_pos_bound n 10).
  apply andb_true_intro. split; apply N.leb_le; lia.
Qed.

Lemma digit_val_digit n : digit_val (digit n) = (n mod 10)%Z.
Proof.
  unfold digit_val. rewrite code_digit.
  pose proof (Z.mod_pos_bound n 10). lia.
Qed.

Lemma two_digits a b :
  two (digit a) (digit b) = Some (10 * (a mod 10) + b mod 10)%Z.
Proof.
  unfold two. by rewrite !is_digit_digit, !digit_val_digit.
Qed.

Lemma two_pad n :
  (0 <= n < 100)%Z -> (10 * ((n / 10) mod 10) + n mod 10 = n)%Z.
Proof. intros H. Z.div_mod_to_equations. lia. Qed.

Lemma four_pad n :
  (0 <= n < 10000)%Z ->
  (100 * (10 * ((n / 1000) mod 10) + (n / 100) mod 10)
   + (10 * ((n / 10) mod 10) + n mod 10) = n)%Z.
Proof. intros H. Z.div_mod_to_equations. lia. Qed.

Lemma days_in_month_bound y m : (28 <= days_in_month y m <= 31)%Z.
Proof. unfold days_in_month. repeat case_match; lia. Qed.

(** The date [save_record] writes reads back as the time it was made
    from. *)
Lemma parse_strftime t :
  valid_timestamp t = true -> parse_datetime (strftime t) = Some t.
Proof.
  destruct t as [y m d h mi se]. unfold valid_timestamp.
  cbn [year month day hour minute second].
  intros H. repeat (apply andb_prop in H as [H ?]).
  unfold parse_datetime, strftime.
  rewrite list_ascii_of_string_of_list_ascii.
  cbn [year month day hour minute second]. unfold pad4, pad2. cbn [app].
  unfold parse_date, parse_time.
  repeat (rewrite two_digits; cbn [mbind option_bind]).
  pose proof (days_in_month_bound y m).
  unfold between in *.
  repeat match goal with
         | H : (_ && _) = true |- _ => apply andb_prop in H as [? ?]
         | H : (_ <=? _)%Z = true |- _ => apply Z.leb_le in H
         end.
  rewrite (four_pad y), (two_pad m), (two_pad d) by lia.
  repeat match goal with
         | |- context [(?a <=? ?b)%Z] =>
             rewrite (proj2 (Z.leb_le a b)) by lia
         end.
  cbn [andb mbind option_bind].
  repeat (rewrite two_digits; cbn [mbind option_bind]).
  rewrite (two_pad h), (two_pad mi), (two_pad se) by lia.
  repeat match goal with
         | |- context [(?a <=? ?b)%Z] =>
             rewrite (proj2 (Z.leb_le a b)) by lia
         end.
  reflexivity.
Qed.

(** X22. Every record made by a save at a time of day has a date that
    reads back as that time, and its month is the month of that time. *)
Lemma saved_date_reads e :
  valid_timestamp (e_now e) = true ->
  parse_datetime (r_date (record_of e)) = Some (e_now e)
  /\ month_of (record_of e) =
       Some (mkPeriod (year (e_now e)) (month (e_now e))).
Proof.
  intros H. unfold month_of. cbn [record_of r_date].
  by rewrite (parse_strftime _ H).
Qed.

Lemma saved_date_reads_witness :
  valid_timestamp (e_now (mkEntry (mkTimestamp 2024 2 29 23 59 59) "Income"
                            "Salary" "1000" "")) = true
  /\ month_of
       (record_of (mkEntry (mkTimestamp 2024 2 29 23 59 59) "Income" "Salary"
                     "1000" "")) = Some (mkPeriod 2024 2).
Proof.
  split; [reflexivity|].
  exact (proj2 (saved_date_reads
                  (mkEntry (mkTimestamp 2024 2 29 23 59 59) "Income" "Salary"
                     "1000" "") eq_refl)).
Defined.

End Dates.

(** ** The dashboard *)

Section Dashboard.

Lemma mapM_map {A B C} (f : B -> res C) (g : A -> B) (h : A -> C) l :
  (forall x, In x l -> f (g x) = Ok (h x)) ->
  mapM f (map g l) = Ok (map h l).
Proof.
  induction l as [|x l IH]; intros H; cbn; [done|].
  rewrite (H x) by (by left). cbn.
  rewrite IH by (intros y Hy; apply H; by right). done.
Qed.

Lemma zip_map {A B C} (f : A -> B) (g : A -> C) l :
  zip (map f l) (map g l) = map (fun x => (f x, g x)) l.
Proof. induction l as [|x l IH]; cbn; [done|]. by rewrite IH. Qed.


Lemma keep_maps {A B} (f : A -> B) (g : A -> bool) l :
  keep (map f l) (map g l) = map f (List.filter g l).
Proof.
  induction l as [|x l IH]; cbn; [done|]. destruct (g x); cbn; by rewrite IH.
Qed.

Lemma getitem_map {A} (f : A -> row) cols c (g : A -> cell) l :
  member c cols = true ->
  (forall x, at_ (f x) c = g x) ->
  getitem (mkDataFrame cols (map f l)) c = Ok (map g l).
Proof.
  intros Hc Hg. unfold getitem; cbn [columns rows]. rewrite Hc, map_map.
  f_equal. apply map_ext. intros x. apply Hg.
Qed.



Lemma getitem_frame rs c (g : record -> cell) :
  member c COLUMNS = true ->
  (forall r, at_ (record_row r) c = g r) ->
  getitem (frame_of rs) c = Ok (map g rs).
Proof. apply getitem_map. Qed.

Lemma groupby_sum_frame rs :
  groupby_sum (frame_of rs) "category" "amount" =
    Ok (group_sum String.compare
          (map (fun r => (Some (r_category r), r_amount r)) rs)).
Proof.
  unfold groupby_sum.
  rewrite (getitem_frame rs "category" (fun r => Str (r_category r)))
    by done.
  rewrite (getitem_frame rs "amount" (fun r => Num (r_amount r))) by done.
  cbn -[mapM].
  rewrite (mapM_map str_key _ (fun r => Some (r_category r))) by done.
  cbn -[mapM].
  rewrite (mapM_map num _ r_amount) by done.
  cbn. by rewrite zip_map.
Qed.

Lemma expense_data_frame rs :
  expense_data (frame_of rs) =
    Ok (group_sum String.compare
          (map (fun r => (Some (r_category r), r_amount r))
             (List.filter is_expense rs))).
Proof.
  unfold expense_data.
  rewrite (getitem_frame rs "type" (fun r => Str (r_type r))) by done.
  cbn -[groupby_sum]. unfold getitem_mask, eq_str; cbn -[groupby_sum].
  rewrite map_map, (keep_maps record_row (fun r => is_expense r)).
  apply groupby_sum_frame.
Qed.












End Dashboard.

(** ** More on saving *)

Section MoreSaving.

(** The two ways out of [save_record], with what the form held. *)
Lemma save_record_outcome now st :
  ((category_var st = ""
    \/ float (strip (amount_entry st)) = None
    \/ (exists a, float (strip (amount_entry st)) = Some a
                  /\ leb a zero = true))
   /\ exists text,
        save_record now st = alert (showerror "Validation Error" text) st)
  \/ (exists a,
        category_var st <> ""
        /\ float (strip (amount_entry st)) = Some a
        /\ leb a zero = false
        /\ save_record now st = saved now st a).
Proof.
  destruct (String.eqb_spec (category_var st) "") as [Hc|Hc].
  { left. split; [auto|]. destruct (save_record_rejected now st) as (t & ? & _);
      eauto. }
  destruct (float (strip (amount_entry st))) as [a|] eqn:Ha.
  2: { left. split; [auto|].
       destruct (save_record_rejected now st) as (t & ? & _); eauto. }
  destruct (leb a zero) eqn:Hle.
  { left. split; [eauto|].
    destruct (save_record_rejected now st) as (t & ? & _); eauto. }
  right. exists a. eauto using save_record_accepted.
Qed.

(** X1. Pressing the button twice in a row saves at most once: the second
    press finds the form as the first left it (cleared after a save,
    still wrong after a refusal) and changes neither the dataset nor the
    files. *)
Theorem second_save_changes_nothing (now now' : Timestamp) (st : State) :
  data (save_record now' (save_record now st)) = data (save_record now st)
  /\ disk (save_record now' (save_record now st)) = disk (save_record now st).
Proof.
  destruct (save_record_outcome now st)
    as [[Hbad [text ->]]|(a & _ & _ & _ & ->)].
  - destruct (save_record_rejected now'
                (alert (showerror "Validation Error" text) st) Hbad)
      as (t & -> & _). done.
  - destruct (save_record_rejected now' (saved now st a) (or_introl eq_refl))
      as (t & -> & _). done.
Qed.

(** X2. Choosing a type puts the categories of that type in the list and
    clears the category selected, so that a save made straight after it is
    refused for want of a category, whatever the amount. *)
Theorem type_change_clears_category (expense : bool) (now : Timestamp)
    (st : State) :
  let st' := handle (ChooseType expense) st in
  category_var st' = ""
  /\ category_values st' =
       default [] (CATEGORIES !! (if expense then "Expense" else "Income"))
  /\ amount_entry st' = amount_entry st
  /\ save_record now st' =
       alert (showerror "Validation Error" "Please select a category.") st'.
Proof. destruct expense; repeat split. Qed.

Lemma lstrip_blank l : forallb is_space l = true -> lstrip l = [].
Proof.
  induction l as [|c l IH]; cbn; [done|].
  intros [-> H]%andb_prop. auto.
Qed.

Lemma strip_blank s : is_blank s = true -> strip s = "".
Proof.
  unfold is_blank, strip, strip_chars. intros H.
  by rewrite (lstrip_blank _ H).
Qed.

(** X3. An amount field left empty or filled with white space only is
    refused as not being a number, and nothing is saved. *)
Theorem blank_amount_refused (now : Timestamp) (st : State) :
  category_var st <> "" ->
  is_blank (amount_entry st) = true ->
  save_record now st =
    alert (showerror "Validation Error" "Amount must be a valid number.") st.
Proof.
  intros Hc%String.eqb_neq Hb. unfold save_record.
  by rewrite Hc, (strip_blank _ Hb).
Qed.

Lemma blank_amount_refused_witness :
  category_var
    (fill (mkEntry (mkTimestamp 2024 3 1 0 0 0) "Expense" "Food" "   " "")
       blank) <> ""
  /\ data
       (save_record (mkTimestamp 2024 3 1 0 0 0)
          (fill (mkEntry (mkTimestamp 2024 3 1 0 0 0) "Expense" "Food" "   " "")
             blank)) = new_frame COLUMNS.
Proof.
  assert (Hc : category_var
                 (fill (mkEntry (mkTimestamp 2024 3 1 0 0 0) "Expense" "Food"
                          "   " "") blank) <> "") by discriminate.
  split; [exact Hc|].
  rewrite (blank_amount_refused (mkTimestamp 2024 3 1 0 0 0) _ Hc eq_refl).
  reflexivity.
Defined.

End MoreSaving.

(** ** Reading amounts *)

Section Amounts.










Lemma lstrip_head l :
  lstrip l = [] \/ exists c t, lstrip l = c :: t /\ is_space c = false.
Proof.
  induction l as [|c l IH]; cbn; [by left|].
  destruct (is_space c) eqn:E; [done|]. right. eauto.
Qed.

Lemma lstrip_nonspace c t : is_space c = false -> lstrip (c :: t) = c :: t.
Proof. cbn. by intros ->. Qed.

Lemma lstrip_lstrip l : lstrip (lstrip l) = lstrip l.
Proof.
  destruct (lstrip_head l) as [->|(c & t & -> & Hc)]; [done|].
  by apply lstrip_nonspace.
Qed.

Lemma lstrip_snoc x c :
  is_space c = false -> exists y, lstrip (x ++ [c]) = y ++ [c].
Proof.
  intros Hc. induction x as [|a x IH]; cbn.
  - rewrite Hc. by exists [].
  - destruct (is_space a); [done|]. by exists (a :: x).
Qed.

Lemma strip_chars_idem l : strip_chars (strip_chars l) = strip_chars l.
Proof.
  unfold strip_chars.
  destruct (lstrip_head l) as [->|(c & t & -> & Hc)]; [done|].
  set (w := lstrip (rev (c :: t))).
  assert (Hw : lstrip w = w) by apply lstrip_lstrip.
  assert (Hr : lstrip (rev w) = rev w).
  { destruct (lstrip_snoc (rev t) c Hc) as [y Hy].
    change (rev t ++ [c]) with (rev (c :: t)) in Hy. fold w in Hy.
    rewrite Hy, rev_app_distr. by apply lstrip_nonspace. }
  by rewrite Hr, rev_involutive, Hw.
Qed.

Lemma strip_strip s : strip (strip s) = strip s.
Proof.
  unfold strip.
  by rewrite list_ascii_of_string_of_list_ascii, strip_chars_idem.
Qed.


Lemma spells_nan_strip s : spells_nan (strip s) = spells_nan s.
Proof.
  unfold spells_nan, strip.
  by rewrite list_ascii_of_string_of_list_ascii, strip_chars_idem.
Qed.



(** X6. White space around the amount makes no difference to a save:
    with the amount typed as it is or with its ends trimmed, the dataset,
    the files and the dialogs after the save are the same. *)
Theorem amount_padding_ignored (now : Timestamp) (s : string) (st : State) :
  let padded := save_record now (handle (TypeAmount s) st) in
  let trimmed := save_record now (handle (TypeAmount (strip s)) st) in
  data trimmed = data padded
  /\ disk trimmed = disk padded
  /\ messages trimmed = messages padded.
Proof.
  unfold save_record, handle.
  cbn [category_var amount_entry record_type description_entry
       category_values set_form].
  rewrite strip_strip.
  destruct (String.eqb (category_var st) ""); [done|].
  destruct (float (strip s)) as [a|]; [|done].
  by destruct (leb a zero).
Qed.

End Amounts.

(** ** More on the history and the exports *)

Section MoreHistory.

(** X7. Selecting the History tab displays the whole dataset again: what
    a filter had left on display is replaced by all the rows, as if both
    filters were set to ["All"], while the two filter boxes keep the
    values chosen. *)
Theorem history_tab_displays_all (st : State) :
  has_columns (data st) = true ->
  let st' := on_tab_change "History" (apply_filter st) in
  treeview st' = treeview (apply_filter (set_filters "All" "All" st))
  /\ treeview st' = values (data st)
  /\ filter_type_var st' = filter_type_var st
  /\ filter_category_var st' = filter_category_var st.
Proof.
  intros H st'. subst st'.
  rewrite (apply_filter_treeview st H).
  rewrite (apply_filter_treeview (set_filters "All" "All" st) H).
  unfold on_tab_change, load_history_data, values, empty. cbn.
  assert (Hall : List.filter (row_matches "All" "All") (rows (data st)) =
                 rows (data st)).
  { induction (rows (data st)) as [|r l IH]; cbn; [done|]. by rewrite IH. }
  rewrite Hall. repeat split.
  all: destruct (columns (data st)) eqn:Hc;
    [unfold has_columns in H; by rewrite Hc in H|].
  all: by destruct (rows (data st)).
Qed.

Lemma history_tab_displays_all_witness :
  has_columns (data five_loaded) = true
  /\ length
       (treeview
          (on_tab_change "History"
             (apply_filter (set_filters "Income" "Gift" five_loaded)))) = 5.
Proof.
  split; [reflexivity|].
  rewrite (proj1 (proj2 (history_tab_displays_all
                           (set_filters "Income" "Gift" five_loaded)
                           eq_refl))).
  reflexivity.
Defined.

(** X8. On a dataset without a [type] column a filter on the type raises
    [KeyError] and the callback leaves the window as it was, rows on
    display included; with both filters at ["All"] no column is looked up
    and all the rows are displayed. *)
Theorem filter_without_type_column (st : State) :
  member "type" (columns (data st)) = false ->
  filter_type_var st <> "All" ->
  filtered (data st) (filter_type_var st) (filter_category_var st) =
    Raise (KeyError "type")
  /\ apply_filter st = st
  /\ treeview (apply_filter (set_filters "All" "All" st)) =
       (if empty (data st) then [] else values (data st)).
Proof.
  intros Hm Hf%String.eqb_neq.
  assert (Hr : filtered (data st) (filter_type_var st)
                 (filter_category_var st) = Raise (KeyError "type")).
  { unfold filtered, copy, getitem. by rewrite Hf, Hm. }
  split; [exact Hr|]. split; [unfold apply_filter; by rewrite Hr|].
  reflexivity.
Qed.

Lemma filter_without_type_column_witness :
  member "type" (columns (data foreign)) = false
  /\ filter_type_var foreign <> "All"
  /\ apply_filter foreign = foreign.
Proof.
  assert (Hf : filter_type_var foreign <> "All") by discriminate.
  split; [reflexivity|]. split; [exact Hf|].
  exact (proj1 (proj2 (filter_without_type_column foreign eq_refl Hf))).
Defined.

(** X9. After valid saves in a window opened on no file, the History tab
    lists the records saved, one line each, in the order of the saves. *)
Theorem history_lists_saves_in_order (st : State) (es : list entry) :
  data st = new_frame COLUMNS ->
  Forall (fun e => valid e = true) es ->
  treeview (on_tab_change "History" (submit_all es st)) =
    map (fun e => line_of (record_of e)) es.
Proof.
  intros Hd Hv.
  destruct (submit_all_valid es st [] Hd Hv) as [Hd' _].
  cbn [app] in Hd'.
  unfold on_tab_change. change (String.eqb "History" "History") with true.
  cbn iota. unfold load_history_data.
  cbn [default treeview set_treeview]. rewrite Hd'.
  rewrite values_frame_of, map_map. by destruct es.
Qed.

Lemma history_lists_saves_in_order_witness :
  data blank = new_frame COLUMNS
  /\ Forall (fun e => valid e = true) two_entries
  /\ length (treeview (on_tab_change "History" (submit_all two_entries blank)))
     = 2.
Proof.
  assert (Hv : Forall (fun e => valid e = true) two_entries)
    by (repeat constructor).
  split; [reflexivity|]. split; [exact Hv|].
  rewrite (history_lists_saves_in_order blank two_entries eq_refl Hv).
  reflexivity.
Defined.



(** X11. An export writes the file chosen and no other; with the dialog
    dismissed the spreadsheet export does nothing at all, even when its
    library is missing, while the document export reports a missing
    library before any dialog; and with the library missing neither
    writes a file. *)
Theorem export_writes_its_file_only (lib : bool) (file_path other : string)
    (st : State) :
  other <> file_path ->
  disk (export_to_excel lib file_path st) !! other = disk st !! other
  /\ disk (export_to_pdf lib file_path st) !! other = disk st !! other
  /\ export_to_excel lib "" st = st
  /\ export_to_pdf true "" st = st
  /\ disk (export_to_excel false file_path st) = disk st
  /\ disk (export_to_pdf false file_path st) = disk st
  /\ messages (export_to_pdf false "" st) =
       messages st
       ++ [showerror "Library Missing"
             "Please install the 'ReportLab' library: pip install ReportLab"].
Proof.
  intros Hne. unfold export_to_excel, export_to_pdf.
  repeat split; try done; try (by repeat case_match).
  all: repeat case_match; try done; cbn; by rewrite lookup_insert_ne.
Qed.

Lemma export_writes_its_file_only_witness :
  CSV_FILE <> "out.xlsx"
  /\ disk (export_to_excel true "out.xlsx" five_loaded) !! CSV_FILE =
       disk five_loaded !! CSV_FILE.
Proof.
  assert (Hne : CSV_FILE <> "out.xlsx") by discriminate.
  split; [exact Hne|].
  exact (proj1 (export_writes_its_file_only true "out.xlsx" CSV_FILE
                  five_loaded Hne)).
Defined.

End MoreHistory.

(** ** Files and rows across callbacks *)

Section MoreFrame.

Lemma save_record_other_files now st q :
  q <> CSV_FILE -> disk (save_record now st) !! q = disk st !! q.
Proof.
  intros Hq.
  destruct (save_record_cases now st) as [[text ->]|(a & _ & _ & _ & ->)];
    [done|].
  unfold saved; cbn. by rewrite lookup_insert_ne.
Qed.

Lemma handle_other_files e st q :
  touches e q = false -> disk (handle e st) !! q = disk st !! q.
Proof.
  destruct e; cbn; intros H; try done; try (by case_match).
  - apply save_record_other_files. by apply String.eqb_neq.
  - by destruct (apply_filter_keeps st) as (_ & _ & ->).
  - unfold on_tab_change. repeat case_match; try done.
    by destruct (create_dashboard_plots_keeps st) as [_ ->].
  - apply String.eqb_neq in H. unfold export_to_excel.
    repeat case_match; try done. cbn. by rewrite lookup_insert_ne.
  - apply String.eqb_neq in H. unfold export_to_pdf.
    repeat case_match; try done. cbn. by rewrite lookup_insert_ne.
Qed.

(** X12. A callback writes no file but its own: a save the persisted
    file, an export the path chosen, and the form, the filters, the tabs
    and the dashboard none at all. *)
Theorem callbacks_write_their_file_only (e : event) (st : State)
    (path : string) :
  touches e path = false ->
  disk (handle e st) !! path = disk st !! path.
Proof. apply handle_other_files. Qed.

Lemma callbacks_write_their_file_only_witness :
  touches (SelectTab "Dashboard") CSV_FILE = false
  /\ disk (handle (SelectTab "Dashboard") five_loaded) !! CSV_FILE =
       disk five_loaded !! CSV_FILE.
Proof.
  split; [reflexivity|].
  exact (callbacks_write_their_file_only (SelectTab "Dashboard") five_loaded
           CSV_FILE eq_refl).
Defined.

Lemma mapM_length {A B} (f : A -> res B) l l' :
  mapM f l = Ok l' -> length l' = length l.
Proof.
  revert l'. induction l as [|x l IH]; intros l'; cbn.
  - by intros [= <-].
  - destruct (f x) as [y|e]; cbn; [|done].
    destruct (mapM f l) as [k|e]; cbn; [|done].
    intros [= <-]. cbn. by rewrite (IH k).
Qed.

Lemma getitem_length df c s :
  getitem df c = Ok s -> length s = length (rows df).
Proof.
  unfold getitem. case_match; [|done]. intros [= <-]. by rewrite length_map.
Qed.

Lemma setitem_length df c s :
  length s = length (rows df) ->
  length (rows (setitem df c s)) = length (rows df).
Proof. intros H. unfold setitem; cbn. rewrite length_zip_with. lia. Qed.

Lemma monthly_summary_length df :
  length (rows (fst (monthly_summary df))) = length (rows df).
Proof.
  unfold monthly_summary, mbind, res_bind.
  destruct (getitem df "date") as [s|e] eqn:Hs; [|done].
  destruct (to_datetime s) as [d|e] eqn:Hd; [|done].
  assert (Hl : length d = length (rows df)).
  { rewrite (mapM_length _ _ _ Hd). by apply (getitem_length df "date"). }
  destruct (getitem (setitem df "date" d) "date") as [s'|e] eqn:Hs';
    [|by apply setitem_length].
  destruct (dt_to_period_M s') as [m|e] eqn:Hm;
    [|by apply setitem_length].
  cbn [fst]. rewrite setitem_length; [by apply setitem_length|].
  rewrite (mapM_length _ _ _ Hm). by apply getitem_length in Hs'.
Qed.

Lemma create_dashboard_plots_length st :
  length (rows (data (create_dashboard_plots st))) = length (rows (data st)).
Proof.
  unfold create_dashboard_plots. case_match; [done|].
  set (st1 := pie_chart (set_plot_frame [] st)).
  assert (Hd : data st1 = data st)
    by (subst st1; by destruct (pie_chart_keeps (set_plot_frame [] st))
          as [-> _]).
  unfold bar_chart.
  pose proof (monthly_summary_length (data st1)) as Hl.
  destruct (monthly_summary (data st1)) as [df r]. cbn [fst] in Hl.
  rewrite Hd in Hl. by repeat case_match.
Qed.

Lemma handle_length e st :
  is_save e = false ->
  length (rows (data (handle e st))) = length (rows (data st)).
Proof.
  destruct e; cbn; intros H; try done; try (by case_match).
  - by destruct (apply_filter_keeps st) as [-> _].
  - unfold on_tab_change. repeat case_match; try done.
    apply create_dashboard_plots_length.
  - by destruct (export_to_excel_keeps openpyxl file_path st) as [-> _].
  - by destruct (export_to_pdf_keeps reportlab file_path st) as [-> _].
Qed.

Lemma handle_in_step e st :
  spares_csv e = true -> in_step st -> in_step (handle e st).
Proof.
  unfold spares_csv, in_step. intros He Hst.
  destruct (is_save e) eqn:Hs.
  - destruct e; try done. cbn [handle].
    destruct (save_record_cases now st)
      as [[text ->]|(a & _ & _ & _ & ->)]; [done|].
    unfold saved, persisted, exists_; cbn. rewrite lookup_insert_eq.
    destruct (disk st !! CSV_FILE) as [f|] eqn:Hf; cbn.
    + rewrite !length_app. cbn. lia.
    + by rewrite Hst.
  - cbn in He. apply negb_true_iff in He.
    rewrite (handle_other_files e st CSV_FILE He).
    pose proof (handle_length e st Hs) as Hl.
    destruct (disk st !! CSV_FILE); [lia|].
    rewrite Hst in Hl. by destruct (rows (data (handle e st))).
Qed.

(** X13. In a window opened on no file, as long as no export is aimed at
    the persisted file, the file keeps in step with the memory through
    every callback: it is absent while the dataset has no row, and
    otherwise holds the header and as many lines as the dataset has
    rows. *)
Theorem file_in_step_with_memory (es : list event) :
  Forall (fun e => spares_csv e = true) es ->
  in_step (run es blank).
Proof.
  intros H. assert (Hb : in_step blank) by done.
  revert Hb. generalize blank.
  induction H as [|e es He _ IH]; intros st Hst; [done|].
  apply (IH (handle e st)), handle_in_step; done.
Qed.

Lemma file_in_step_with_memory_witness :
  Forall (fun e => spares_csv e = true) save_then_dashboard
  /\ in_step (run save_then_dashboard blank).
Proof.
  assert (H : Forall (fun e => spares_csv e = true) save_then_dashboard)
    by (repeat constructor).
  split; [exact H|]. exact (file_in_step_with_memory save_then_dashboard H).
Defined.

Lemma handle_keeps_empty e st :
  is_save e = false -> rows (data st) = [] -> data (handle e st) = data st.
Proof.
  destruct e; cbn; intros H Hr; try done; try (by case_match).
  - by destruct (apply_filter_keeps st) as [-> _].
  - unfold on_tab_change. repeat case_match; try done.
    unfold create_dashboard_plots, empty. cbn. rewrite Hr.
    by destruct (columns (data st)).
  - by destruct (export_to_excel_keeps openpyxl file_path st) as [-> _].
  - by destruct (export_to_pdf_keeps reportlab file_path st) as [-> _].
Qed.

(** X14. Nothing but a save puts a row in the dataset: in a window opened
    on no file, after any presses with no save among them the dataset is
    still the empty frame with the fixed columns, and the dashboard shows
    the message for an empty dataset and no chart. *)
Theorem no_rows_before_a_save (es : list event) :
  Forall (fun e => is_save e = false) es ->
  data (run es blank) = new_frame COLUMNS
  /\ plot_frame (on_tab_change "Dashboard" (run es blank)) =
       [Label "No data to display. Please add some records first."]
  /\ data (on_tab_change "Dashboard" (run es blank)) = new_frame COLUMNS.
Proof.
  intros H.
  assert (Hd : data (run es blank) = new_frame COLUMNS).
  { assert (Hb : data blank = new_frame COLUMNS) by done.
    revert Hb. generalize blank.
    induction H as [|e es He _ IH]; intros st Hst; [done|].
    apply (IH (handle e st)).
    rewrite (handle_keeps_empty e st He); [done|by rewrite Hst]. }
  split; [exact Hd|].
  unfold on_tab_change, create_dashboard_plots. cbn. by rewrite Hd.
Qed.

Lemma no_rows_before_a_save_witness :
  Forall (fun e => is_save e = false) browsing
  /\ data (run browsing blank) = new_frame COLUMNS.
Proof.
  assert (H : Forall (fun e => is_save e = false) browsing)
    by (repeat constructor).
  split; [exact H|]. exact (proj1 (no_rows_before_a_save browsing H)).
Defined.

End MoreFrame.

(** ** More on dates *)

Section MoreDates.





End MoreDates.

(** ** More on the dashboard *)

Section MoreDashboard.




















End MoreDashboard.

(** ** More on the pie chart *)

Section Sorted.
Context {K : Type} (cmp : K -> K -> comparison) (Hord : Order cmp).

Lemma ascending_head_not_in a l : ascending cmp (a :: l) -> ~ In a l.
Proof.
  intros [_ Ha]%StronglySorted_inv Hin. rewrite List.Forall_forall in Ha.
  apply Ha in Hin. by rewrite (proj2 (cmp_eq cmp Hord a a) eq_refl) in Hin.
Qed.

Lemma ascending_same_members l1 l2 :
  ascending cmp l1 -> ascending cmp l2 ->
  (forall k, In k l1 <-> In k l2) -> l1 = l2.
Proof.
  revert l2. induction l1 as [|a l1 IH]; intros [|b l2] H1 H2 Hm.
  - done.
  - destruct (proj2 (Hm b)); by left.
  - destruct (proj1 (Hm a)); by left.
  - pose proof (ascending_head_not_in _ _ H1) as Na.
    pose proof (ascending_head_not_in _ _ H2) as Nb.
    pose proof H1 as [S1 F1]%StronglySorted_inv.
    pose proof H2 as [S2 F2]%StronglySorted_inv.
    rewrite List.Forall_forall in F1, F2.
    assert (a = b) as <-.
    { destruct (proj1 (Hm a) (or_introl eq_refl)) as [->|Ha]; [done|].
      destruct (proj2 (Hm b) (or_introl eq_refl)) as [->|Hb]; [done|].
      pose proof (F2 _ Ha) as Hba. pose proof (F1 _ Hb) as Hab.
      rewrite (cmp_antisym cmp Hord), Hba in Hab. discriminate Hab. }
    f_equal. apply IH; [done..|]. intros k. split; intros Hk.
    + destruct (proj1 (Hm k) (or_intror Hk)) as [<-|]; [done|done].
    + destruct (proj2 (Hm k) (or_intror Hk)) as [<-|]; [done|done].
Qed.

End Sorted.

Section Slices.

(** X23. The slices of the pie chart and their order depend on which
    categories have an expense and on nothing else: two datasets with the
    same records, in any order and any number of times, give the same
    categories in the same ascending order. *)
Theorem breakdown_ignores_row_order (rs rs' : list record) :
  (forall r, In r rs <-> In r rs') ->
  exists g g',
    expense_data (frame_of rs) = Ok g
    /\ expense_data (frame_of rs') = Ok g'
    /\ map fst g = map fst g'
    /\ ascending String.compare (map fst g).
Proof.
  intros Hm. rewrite !expense_data_frame. do 2 eexists.
  split; [reflexivity|]. split; [reflexivity|].
  destruct (group_sum_spec String.compare string_order
              (map (fun r => (Some (r_category r), r_amount r))
                 (List.filter is_expense rs))) as (Hs & Hk & _).
  destruct (group_sum_spec String.compare string_order
              (map (fun r => (Some (r_category r), r_amount r))
                 (List.filter is_expense rs'))) as (Hs' & Hk' & _).
  split; [|exact Hs].
  apply (ascending_same_members String.compare string_order); [done..|].
  intros c. rewrite Hk, Hk', !map_map, !in_map_iff.
  split; intros (r & Hc & [Hr He]%filter_In); exists r;
    (split; [done|]); apply filter_In; split; try done; by apply Hm.
Qed.

Lemma breakdown_ignores_row_order_witness :
  (forall r, In r three_records <-> In r (rev three_records))
  /\ exists g g',
       expense_data (frame_of three_records) = Ok g
       /\ expense_data (frame_of (rev three_records)) = Ok g'
       /\ map fst g = map fst g'.
Proof.
  assert (H : forall r, In r three_records <-> In r (rev three_records))
    by (intros r; apply in_rev).
  split; [exact H|].
  destruct (breakdown_ignores_row_order three_records (rev three_records) H)
    as (g & g' & H1 & H2 & H3 & _).
  exists g, g'. split; [exact H1|]. split; [exact H2|exact H3].
Defined.

End Slices.

(** ** The widgets *)

Section Widgets.

Lemma save_record_filters now st : filters (save_record now st) = filters st.
Proof. unfold save_record. by repeat case_match. Qed.

Lemma create_dashboard_plots_filters st :
  filters (create_dashboard_plots st) = filters st.
Proof.
  unfold create_dashboard_plots, bar_chart, pie_chart.
  repeat case_match; try done.
Qed.

Lemma handle_filters_ok e st : filters_ok st -> filters_ok (handle e st).
Proof.
  intros [Ht Hc].
  destruct e as [b|c|s|s|now|v|v| |tab|o p|o p]; cbn [handle].
  - done.
  - by case_match.
  - done.
  - done.
  - pose proof (save_record_filters now st) as [= H1 H2].
    unfold filters_ok. by rewrite H1, H2.
  - by case_match.
  - by case_match.
  - unfold apply_filter. by case_match.
  - unfold on_tab_change. repeat case_match; try done.
    pose proof (create_dashboard_plots_filters st) as [= H1 H2].
    unfold filters_ok. by rewrite H1, H2.
  - unfold export_to_excel. by repeat case_match.
  - unfold export_to_pdf. by repeat case_match.
Qed.

Lemma init_consistent (read_csv : file -> res DataFrame) d st :
  init read_csv d = Ok st ->
  form_ok st /\ filters_ok st
  /\ load_data read_csv d = Ok (data st)
  /\ treeview st = (if empty (data st) then [] else values (data st)).
Proof.
  unfold init. destruct (load_data read_csv d) as [df|e]; [|done].
  cbn. intros [= <-]. repeat split; cbn; auto.
Qed.

(** X24. Whatever file the window opens on and whatever the user does
    then, the boxes of the window stay consistent: the type is Expense or
    Income, the category list is the list of that type, the category
    selected is empty or in that list, and each filter box holds one of
    its own values; and the window opens with the rows it loaded on
    display in the history. *)
Theorem widgets_stay_consistent (read_csv : file -> res DataFrame)
    (d : gmap string file) (st : State) (es : list event) :
  init read_csv d = Ok st ->
  form_ok (run es st) /\ filters_ok (run es st)
  /\ treeview st = (if empty (data st) then [] else values (data st)).
Proof.
  intros (Hf & Hg & _ & Ht)%init_consistent.
  split; [by apply run_form_ok|]. split; [|done].
  clear Hf Ht. revert st Hg.
  induction es as [|e es IH]; intros st Hst; [done|].
  apply (IH (handle e st)), handle_filters_ok, Hst.
Qed.

Lemma widgets_stay_consistent_witness :
  init (fun _ => Raise EmptyDataError) ∅ = Ok blank
  /\ form_ok (run browsing blank).
Proof.
  split; [reflexivity|].
  exact (proj1 (widgets_stay_consistent (fun _ => Raise EmptyDataError) ∅
                  blank browsing eq_refl)).
Defined.

End Widgets.
